(** * gen.py: text to 3D mesh through the host application's scripting API

    A shallow embedding of [src/gen.py].  The script is glue around the host
    application (scene operators, the file system, the font reader), so the
    host is a parameter: a record [Host] answers every call the script makes,
    and the script itself is a program in a small state-and-exception monad
    that logs each host call it performs and each line it prints. *)

From Stdlib Require Import ZArith NArith String Ascii.
From stdpp Require Import base tactics option list gmap.

Local Open Scope Z_scope.

(** ** Python values *)

(** A Python [str] is a sequence of Unicode code points. *)
Abbreviation pystr := (list N).

Definition lit (s : string) : pystr :=
  map N_of_ascii (list_ascii_of_string s).
Arguments lit s%_string.

(** A [float], written as the decimal literal that denotes it:
    [digits * 10 ^ exponent], rounded to the nearest double. *)
Record pyfloat := Dec { digits : Z; exponent : Z }.

(** An instance of (a subclass of) [Exception]; [str(e)] is [exn_msg]. *)
Record exn := Exn { exn_class : string; exn_msg : pystr }.

(** How a call ends: with a value, with an exception, or by leaving the
    interpreter ([SystemExit], which [except Exception] does not catch). *)
Inductive outcome (A : Type) : Type :=
| Return (a : A)
| Raise (e : exn)
| Exit (code : Z).
Arguments Return {A} a.
Arguments Raise {A} e.
Arguments Exit {A} code.

(** ** Library functions the script uses *)

(** [str.isspace] on one character (the white-space table of CPython). *)
Definition isspace (c : N) : bool :=
  ((9 <=? c) && (c <=? 13) || (28 <=? c) && (c <=? 32) || (c =? 133)
   || (c =? 160) || (c =? 5760) || (8192 <=? c) && (c <=? 8202)
   || (c =? 8232) || (c =? 8233) || (c =? 8239) || (c =? 8287)
   || (c =? 12288))%N.

(** [str.lower] restricted to the ASCII letters; used where a concrete case
    mapping is needed, the script itself is parametric in [lower]. *)
Definition ascii_lower (s : pystr) : pystr :=
  map (fun c => if (65 <=? c) && (c <=? 90) then c + 32 else c)%N s.

(** [p.rfind(c)]: the last index of [c] in [p], or -1. *)
Fixpoint rfind_from (c : N) (p : pystr) (i last : Z) : Z :=
  match p with
  | [] => last
  | x :: p' => rfind_from c p' (i + 1) (if N.eqb x c then i else last)
  end.

Definition rfind (c : N) (p : pystr) : Z := rfind_from c p 0 (-1).

(** [p[i:j]] for non-negative [i] and [j]. *)
Definition slice (p : pystr) (i j : Z) : pystr :=
  take (Z.to_nat (j - i)) (drop (Z.to_nat i) p).

Definition extsep : N := 46.

(** The loop of [genericpath._splitext] that skips the leading dots of the
    file name; [fuel] bounds the iterations, [dotIndex - filenameIndex] of
    them are needed. *)
Fixpoint splitext_scan (p : pystr) (fuel : nat) (filenameIndex dotIndex : Z)
  : pystr * pystr :=
  match fuel with
  | O => (p, [])
  | S fuel' =>
      if filenameIndex <? dotIndex then
        if decide (slice p filenameIndex (filenameIndex + 1) = [extsep])
        then splitext_scan p fuel' (filenameIndex + 1) dotIndex
        else (take (Z.to_nat dotIndex) p, drop (Z.to_nat dotIndex) p)
      else (p, [])
  end.

(** [os.path.splitext], as [genericpath._splitext p sep altsep '.']. *)
Definition splitext (sep : N) (altsep : option N) (p : pystr) : pystr * pystr :=
  let sepIndex :=
    match altsep with
    | Some a => Z.max (rfind sep p) (rfind a p)
    | None => rfind sep p
    end in
  let dotIndex := rfind extsep p in
  if sepIndex <? dotIndex
  then splitext_scan p (length p) (sepIndex + 1) dotIndex
  else (p, []).

(** [posixpath.join] of two components and [posixpath.dirname]. *)
Definition posix_join (a b : pystr) : pystr :=
  match b with
  | 47%N :: _ => b
  | _ => match last a with
         | None | Some 47%N => a ++ b
         | Some _ => a ++ 47%N :: b
         end
  end.

Fixpoint rstrip (c : N) (p : pystr) : pystr :=
  match p with
  | [] => []
  | x :: p' => match rstrip c p' with
               | [] => if N.eqb x c then [] else [x]
               | r => x :: r
               end
  end.

Definition posix_dirname (p : pystr) : pystr :=
  let head := slice p 0 (rfind 47%N p + 1) in
  match rstrip 47%N head with
  | [] => head
  | stripped => stripped
  end.

(** [f"{n:04X}"]: upper-case hexadecimal, zero-padded to four digits. *)
Definition hex_digit (d : N) : N := (if d <? 10 then 48 + d else 55 + d)%N.

Fixpoint hex_digits (fuel : nat) (n : N) (acc : pystr) : pystr :=
  let acc' := hex_digit (n mod 16) :: acc in
  match fuel with
  | O => acc'
  | S fuel' => if (n / 16 =? 0)%N then acc' else hex_digits fuel' (n / 16) acc'
  end.

Definition format_04X (n : N) : pystr :=
  let ds := hex_digits (N.to_nat (N.log2 n)) n [] in
  replicate (4 - length ds)%nat 48%N ++ ds.

(** ** The host *)

(** Scene objects are named by the host; a font datablock by the file it was
    loaded from. *)
Definition obj := N.
Inductive font := Font (filepath : pystr).

Definition location := (Z * Z * Z)%type.

(** The calls the script makes into the host application and the file
    system, with their arguments. *)
Inductive event :=
| object_select_all (action : pystr)
| object_delete
| object_text_add (loc : location)
| set_data_body (o : obj) (body : pystr)
| fonts_load (filepath : pystr)
| set_data_font (o : obj) (f : font)
| set_data_extrude (o : obj) (v : pyfloat)
| set_data_bevel_depth (o : obj) (v : pyfloat)
| set_data_bevel_resolution (o : obj) (v : Z)
| set_view_layer_active (o : obj)
| object_convert (target : pystr)
| object_shade_smooth
| object_modifier_add (type : pystr)
| object_origin_set (type : pystr)
| set_location (o : obj) (loc : location)
| os_makedirs (path : pystr) (exist_ok : bool)
| select_set (o : obj) (state : bool)
| wm_obj_export (filepath : pystr) (export_selected_objects export_materials : bool)
| wm_save_as_mainfile (filepath : pystr).

Definition is_export (e : event) : bool :=
  match e with
  | wm_obj_export _ _ _ | wm_save_as_mainfile _ => true
  | _ => false
  end.

(** What an operator hands back when it does not raise. *)
Inductive status := FINISHED | CANCELLED.

Inductive response :=
| Done (s : status)
| Fails (e : exn).

(** The module [unicodedata] as the script sees it: [script] is looked up as
    an attribute of the module at the call, and may be missing. *)
Record unicodedata_module := {
  ud_name : N -> pystr -> pystr;
  ud_category : N -> pystr;
  ud_script : option (N -> pystr)
}.

Record os_path_module := {
  sep : N;
  altsep : option N;
  join : pystr -> pystr -> pystr;
  dirname : pystr -> pystr
}.

(** [TTFont(path)] when it loads; [getBestCmap()] may raise or give [None]. *)
Record ttfont := { getBestCmap : exn + option (gmap N pystr) }.

(** The values a name of the module can be bound to. *)
Inductive pyval :=
| VNone
| VStr (s : pystr)
| VObj (o : obj)
| VModule (name : string)
| VFunction (name : string).

(** One entry of the list [check_font_support] returns. *)
Record char_info := {
  ci_char : N;
  ci_name : pystr;
  ci_category : pystr;
  ci_script : pystr
}.

(** The options of the command line, as [parse_args] returns them. *)
Record namespace := {
  text : pystr;
  font_ : pystr;
  depth : pyfloat;
  resolution : Z;
  bevel : pyfloat;
  output : option pystr
}.

(** Everything outside the script: the command line, the clock, the file
    system, the font reader, the library functions whose tables are not
    reproduced here, and the host application.  [respond] tells, from the
    calls made so far, how the next call ends; [active_object] is
    [bpy.context.active_object] after those calls. *)
Record Host := {
  argv : list pystr;                  (* sys.argv *)
  script_dir : pystr;                 (* os.path.dirname(os.path.abspath(__file__)) *)
  now : pystr;                        (* datetime.now().strftime("%Y%m%d_%H%M%S") *)
  path_exists : pystr -> bool;        (* os.path.exists *)
  TTFont : pystr -> exn + ttfont;
  os_path : os_path_module;
  lower : pystr -> pystr;             (* str.lower *)
  unicodedata : unicodedata_module;
  format_exc : exn -> pystr;          (* traceback.format_exc() while handling it *)
  argparse_tokens : namespace -> list pystr -> outcome namespace;
  repr : pyval -> pystr;              (* how a value that is not a str is formatted *)
  respond : list event -> event -> response;
  active_object : list event -> obj
}.

(** ** The monad of the script *)

Record world := World { trace : list event; stdout : list pystr }.

Definition init : world := World [] [].

Definition M (A : Type) : Type := world -> outcome A * world.

Global Instance M_ret : MRet M := fun A a w => (Return a, w).

Global Instance M_bind : MBind M := fun A B k m w =>
  match m w with
  | (Return a, w') => k a w'
  | (Raise e, w') => (Raise e, w')
  | (Exit c, w') => (Exit c, w')
  end.

Definition raise {A} (e : exn) : M A := fun w => (Raise e, w).

Definition lift {A} (r : outcome A) : M A := fun w => (r, w).

Definition print (line : pystr) : M unit := fun w =>
  (Return tt, World (trace w) (stdout w ++ [line])).

(** [try: body  except Exception as e: handler e]. *)
Definition try_except {A} (body : M A) (handler : exn -> M A) : M A := fun w =>
  match body w with
  | (Raise e, w') => handler e w'
  | r => r
  end.

Fixpoint for_each {A} (xs : list A) (body : A -> M unit) : M unit :=
  match xs with
  | [] => mret tt
  | x :: xs' => body x;; for_each xs' body
  end.

(** ** Names *)

(** The names bound at module level once [gen.py] is loaded. *)
Definition module_globals : list (string * pyval) :=
  [("bpy", VModule "bpy"); ("os", VModule "os"); ("argparse", VModule "argparse");
   ("sys", VModule "sys"); ("datetime", VFunction "datetime");
   ("TTFont", VFunction "TTFont"); ("unicodedata", VModule "unicodedata");
   ("create_text_mesh", VFunction "create_text_mesh");
   ("get_default_output_path", VFunction "get_default_output_path");
   ("ensure_addons_enabled", VFunction "ensure_addons_enabled");
   ("export_mesh", VFunction "export_mesh"); ("parse_args", VFunction "parse_args");
   ("check_font_support", VFunction "check_font_support");
   ("main", VFunction "main")]%string.

(** The builtins the module refers to. *)
Definition builtins : list (string * pyval) :=
  [("print", VFunction "print"); ("len", VFunction "len"); ("ord", VFunction "ord");
   ("str", VFunction "str"); ("float", VFunction "float"); ("int", VFunction "int");
   ("Exception", VFunction "Exception")]%string.

Fixpoint assoc (name : string) (scope : list (string * pyval)) : option pyval :=
  match scope with
  | [] => None
  | (n, v) :: scope' => if String.eqb n name then Some v else assoc name scope'
  end.

Definition NameError (name : string) : exn :=
  Exn "NameError" (lit "name '" ++ lit name ++ lit "' is not defined").

(** Reading a name inside a function: its locals, then the module, then the
    builtins. *)
Definition load_name (locals : list (string * pyval)) (name : string) : M pyval :=
  match assoc name locals with
  | Some v => mret v
  | None =>
      match assoc name module_globals with
      | Some v => mret v
      | None =>
          match assoc name builtins with
          | Some v => mret v
          | None => raise (NameError name)
          end
      end
  end.

(** [sys.argv.index(x)] when [x] occurs. *)
Fixpoint index (x : pystr) (l : list pystr) : nat :=
  match l with
  | [] => O
  | y :: l' => if decide (y = x) then O else S (index x l')
  end.

(** The defaults declared with [add_argument]. *)
Definition defaults : namespace := {|
  text := lit "hello";
  font_ := lit ".\fonts\hp.ttf";
  depth := Dec 2 (-1);
  resolution := 32;
  bevel := Dec 1 (-2);
  output := None
|}.

(** ** The script *)

Section Script.

Variable host : Host.

(** A host call whose result the script drops: the call is logged, and ends
    as the host answers. *)
Definition exec (e : event) : M unit := fun w =>
  let w' := World (trace w ++ [e]) (stdout w) in
  match respond host (trace w) e with
  | Done _ => (Return tt, w')
  | Fails x => (Raise x, w')
  end.

Definition get_active_object : M obj := fun w =>
  (Return (active_object host (trace w)), w).

Definition format_value (v : pyval) : pystr :=
  match v with
  | VStr s => s
  | _ => repr host v
  end.

Definition create_text_mesh (text font_path : pystr) (extrude_depth : pyfloat)
    (resolution : Z) (bevel_depth : pyfloat) : M (obj * pystr) :=
  exec (object_select_all (lit "SELECT"));;
  exec object_delete;;
  exec (object_text_add (0, 0, 0));;
  text_obj ← get_active_object;
  exec (set_data_body text_obj text);;
  exec (fonts_load font_path);;
  let font := Font font_path in
  exec (set_data_font text_obj font);;
  exec (set_data_extrude text_obj extrude_depth);;
  exec (set_data_bevel_depth text_obj bevel_depth);;
  exec (set_data_bevel_resolution text_obj resolution);;
  let original_text := text in
  exec (set_view_layer_active text_obj);;
  exec (object_convert (lit "MESH"));;
  exec object_shade_smooth;;
  exec (object_modifier_add (lit "EDGE_SPLIT"));;
  mret (text_obj, original_text).

Definition get_default_output_path (text file_ext : pystr) : M pystr :=
  let output_dir := join (os_path host) (script_dir host) (lit "output") in
  exec (os_makedirs output_dir true);;
  let timestamp := now host in
  let filename := text ++ lit "_" ++ timestamp ++ file_ext in
  mret (join (os_path host) output_dir filename).

Definition path_splitext (p : pystr) : pystr * pystr :=
  splitext (sep (os_path host)) (altsep (os_path host)) p.

Definition export_mesh (o : obj) (output_path : option pystr) : M bool :=
  output_path ←
    match output_path with
    | None =>
        original_text ← load_name [("obj", VObj o); ("output_path", VNone)]%string
                                  "original_text";
        get_default_output_path (format_value original_text) (lit ".obj")
    | Some p => mret p
    end;
  let file_ext := lower host (path_splitext output_path).2 in
  let '(file_ext, output_path) :=
    if decide (file_ext = []) then (lit ".obj", output_path ++ lit ".obj")
    else (file_ext, output_path) in
  if decide (file_ext ∉ [lit ".obj"; lit ".blend"]) then
    print (lit "Error: Unsupported file format " ++ file_ext);;
    print (lit "Supported formats: .obj, .blend");;
    mret false
  else
    exec (os_makedirs (dirname (os_path host) output_path) true);;
    exec (object_select_all (lit "DESELECT"));;
    exec (select_set o true);;
    exec (set_view_layer_active o);;
    try_except
      ((if decide (file_ext = lit ".obj") then
          exec (wm_obj_export output_path true false)
        else if decide (file_ext = lit ".blend") then
          exec (wm_save_as_mainfile output_path)
        else mret tt);;
       print (lit "Exported to: " ++ output_path);;
       mret true)
      (fun e =>
         print (lit "Export failed: " ++ exn_msg e);;
         print (format_exc host e);;
         mret false).

(** [parser.parse_args(argv)]: with nothing to parse every option keeps its
    default; the tokens of a non-empty list are left to [argparse]. *)
Definition parser_parse_args (argv : list pystr) : outcome namespace :=
  match argv with
  | [] => Return defaults
  | _ => argparse_tokens host defaults argv
  end.

Definition parse_args : M namespace :=
  let argv :=
    if decide (lit "--" ∈ argv host)
    then drop (index (lit "--") (argv host) + 1) (argv host)
    else [] in
  lift (parser_parse_args argv).

Definition TypeError_not_iterable : exn :=
  Exn "TypeError" (lit "argument of type 'NoneType' is not iterable").

Definition AttributeError_script : exn :=
  Exn "AttributeError" (lit "module 'unicodedata' has no attribute 'script'").

(** The loop of [check_font_support] over the characters of [text]. *)
Fixpoint scan (cmap : option (gmap N pystr)) (text : pystr)
    (unsupported_chars : list char_info) : outcome (list char_info) :=
  match text with
  | [] => Return unsupported_chars
  | char :: text' =>
      match cmap with
      | None => Raise TypeError_not_iterable
      | Some m =>
          if bool_decide (m !! char = None) && negb (isspace char) then
            let char_name := ud_name (unicodedata host) char (lit "UNKNOWN") in
            let char_category := ud_category (unicodedata host) char in
            match ud_script (unicodedata host) with
            | None => Raise AttributeError_script
            | Some script =>
                scan cmap text'
                  (unsupported_chars ++
                   [{| ci_char := char; ci_name := char_name;
                       ci_category := char_category; ci_script := script char |}])
            end
          else scan cmap text' unsupported_chars
      end
  end.

Definition of_sum {A} (r : exn + A) : M A :=
  match r with
  | inl e => raise e
  | inr a => mret a
  end.

Definition check_font_support (font_path text : pystr) : M (bool * list char_info) :=
  try_except
    (font ← of_sum (TTFont host font_path);
     cmap ← of_sum (getBestCmap font);
     unsupported_chars ← lift (scan cmap text []);
     mret (bool_decide (length unsupported_chars = 0%nat), unsupported_chars))
    (fun e =>
       print (lit "Warning: Font check failed - " ++ exn_msg e);;
       mret (true, [])).

Definition newline : pystr := [10%N].

(** [main], with the export step as a parameter; [main] itself calls
    [export_mesh]. *)
Definition main_with (export : obj -> option pystr -> M bool) : M unit :=
  args ← parse_args;
  let font_path := join (os_path host) (script_dir host) (font_ args) in
  if negb (path_exists host font_path) then
    print (lit "Error: Font file not found at " ++ font_path)
  else
    '(is_supported, unsupported_chars) ← check_font_support font_path (text args);
    (if negb is_supported then
       print (newline ++ lit "Warning: Font may not fully support the required characters:");;
       for_each unsupported_chars (fun char_info =>
         print (lit "  - Character '" ++ [ci_char char_info] ++ lit "' (U+"
                ++ format_04X (ci_char char_info) ++ lit "):");;
         print (lit "    Unicode name: " ++ ci_name char_info);;
         print (lit "    Category: " ++ ci_category char_info);;
         print (lit "    Script: " ++ ci_script char_info));;
       print (lit "Continuing execution, but some characters may not display correctly..."
              ++ newline)
     else mret tt);;
    '(text_obj, original_text) ←
      create_text_mesh (text args) font_path (depth args) (resolution args) (bevel args);
    exec (object_origin_set (lit "ORIGIN_CENTER_OF_MASS"));;
    exec (set_location text_obj (0, 0, 0));;
    output_path ←
      match output args with
      | Some (c :: p) => mret (join (os_path host) (script_dir host) (c :: p))
      | _ => get_default_output_path original_text (lit ".obj")
      end;
    export text_obj (Some output_path);;
    mret tt.

Definition main : M unit := main_with export_mesh.

End Script.

(** ** Sample hosts *)

Module Sample.

Definition posix : os_path_module :=
  {| sep := 47; altsep := None; join := posix_join; dirname := posix_dirname |}.

(** A few rows of the Unicode tables; [script] is not an attribute of
    CPython's [unicodedata]. *)
Definition cpython_unicodedata : unicodedata_module := {|
  ud_name := fun c default =>
    if (c =? 72)%N then lit "LATIN CAPITAL LETTER H"
    else if (c =? 105)%N then lit "LATIN SMALL LETTER I"
    else if (c =? 20013)%N then lit "CJK UNIFIED IDEOGRAPH-4E2D"
    else default;
  ud_category := fun c =>
    if (c =? 72)%N then lit "Lu"
    else if (c =? 105)%N then lit "Ll"
    else if (c =? 20013)%N then lit "Lo"
    else lit "Cn";
  ud_script := None
|}.

(** The same tables with a [script] function, as [fontTools.unicodedata]
    has one. *)
Definition scripted_unicodedata : unicodedata_module := {|
  ud_name := ud_name cpython_unicodedata;
  ud_category := ud_category cpython_unicodedata;
  ud_script := Some (fun c => if (c =? 20013)%N then lit "Hani" else lit "Latn")
|}.

(** A Latin font: glyphs for "H", "i" and the space. *)
Definition latin_cmap : gmap N pystr :=
  list_to_map [(32%N, lit "space"); (72%N, lit "H"); (105%N, lit "i")].

(** Options given as [--name value] pairs; anything else ends the run with
    status 2. *)
Fixpoint pairs (ns : namespace) (tokens : list pystr) : outcome namespace :=
  match tokens with
  | [] => Return ns
  | flag :: value :: tokens' =>
      if decide (flag = lit "--text") then
        pairs {| text := value; font_ := font_ ns; depth := depth ns;
                 resolution := resolution ns; bevel := bevel ns;
                 output := output ns |} tokens'
      else if decide (flag = lit "--output") then
        pairs {| text := text ns; font_ := font_ ns; depth := depth ns;
                 resolution := resolution ns; bevel := bevel ns;
                 output := Some value |} tokens'
      else Exit 2
  | _ => Exit 2
  end.

(** Every host call completes; the command line asks for the text "Hi". *)
Definition host (ud : unicodedata_module) (args : list pystr)
    (respond : list event -> event -> response) : Host := {|
  argv := [lit "blender"; lit "-b"; lit "-P"; lit "gen.py"] ++ args;
  script_dir := lit "/srv/gen";
  now := lit "20240101_120000";
  path_exists := fun _ => true;
  TTFont := fun _ => inr {| getBestCmap := inr (Some latin_cmap) |};
  os_path := posix;
  lower := ascii_lower;
  unicodedata := ud;
  format_exc := fun e =>
    lit "Traceback (most recent call last): " ++ lit (exn_class e) ++ lit ": " ++ exn_msg e;
  argparse_tokens := pairs;
  repr := fun _ => lit "<object>";
  respond := respond;
  active_object := fun _ => 1%N
|}.

Definition all_done : list event -> event -> response := fun _ _ => Done FINISHED.

(** The export operators raise, every other call completes. *)
Definition export_fails : list event -> event -> response := fun _ e =>
  if is_export e then Fails (Exn "RuntimeError" (lit "Error: Cannot write file"))
  else Done FINISHED.

(** The options of the command line [-- --text Hi]. *)
Definition hi_args : namespace :=
  {| text := lit "Hi"; font_ := lit ".\fonts\hp.ttf"; depth := Dec 2 (-1);
     resolution := 32; bevel := Dec 1 (-2); output := None |}.

End Sample.

(** ** Notions used in the statements *)

(** The host calls of [es], made one after the other from the history [t],
    all complete. *)
Fixpoint completes (host : Host) (t es : list event) : bool :=
  match es with
  | [] => true
  | e :: es' =>
      match respond host t e with
      | Done _ => completes host (t ++ [e]) es'
      | Fails _ => false
      end
  end.

(** The extension [export_mesh] works with, and the path it exports to: a
    path without extension gets ".obj". *)
Definition resolve_ext (host : Host) (path : pystr) : pystr * pystr :=
  let file_ext := lower host (path_splitext host path).2 in
  if decide (file_ext = []) then (lit ".obj", path ++ lit ".obj")
  else (file_ext, path).

Definition export_prepare (host : Host) (o : obj) (output_path : pystr) : list event :=
  [os_makedirs (dirname (os_path host) output_path) true;
   object_select_all (lit "DESELECT");
   select_set o true;
   set_view_layer_active o].

(** What the [try] body of [check_font_support] computes: the font is
    loaded, its best cmap fetched, the text scanned. *)
Definition font_check (host : Host) (font_path text : pystr) : outcome (list char_info) :=
  match TTFont host font_path with
  | inl e => Raise e
  | inr font =>
      match getBestCmap font with
      | inl e => Raise e
      | inr cmap => scan host cmap text []
      end
  end.

Definition font_check_warning (e : exn) : pystr :=
  lit "Warning: Font check failed - " ++ exn_msg e.

(** A character the font cannot show: not white space, code point not in the
    cmap. *)
Definition unsupported (m : gmap N pystr) (c : N) : bool :=
  bool_decide (m !! c = None) && negb (isspace c).

Definition describe (host : Host) (script : N -> pystr) (c : N) : char_info :=
  {| ci_char := c;
     ci_name := ud_name (unicodedata host) c (lit "UNKNOWN");
     ci_category := ud_category (unicodedata host) c;
     ci_script := script c |}.

(** The operator [export_mesh] invokes for an extension. *)
Definition export_operator (file_ext output_path : pystr) : event :=
  if decide (file_ext = lit ".obj") then wm_obj_export output_path true false
  else wm_save_as_mainfile output_path.

(** The host calls of a run in which every call completes. *)
Definition create_events (host : Host) (t : list event) (text font_path : pystr)
    (extrude_depth : pyfloat) (resolution : Z) (bevel_depth : pyfloat) : list event :=
  let text_obj :=
    active_object host
      (t ++ [object_select_all (lit "SELECT"); object_delete; object_text_add (0, 0, 0)]) in
  [object_select_all (lit "SELECT"); object_delete; object_text_add (0, 0, 0);
   set_data_body text_obj text; fonts_load font_path;
   set_data_font text_obj (Font font_path);
   set_data_extrude text_obj extrude_depth;
   set_data_bevel_depth text_obj bevel_depth;
   set_data_bevel_resolution text_obj resolution;
   set_view_layer_active text_obj; object_convert (lit "MESH");
   object_shade_smooth; object_modifier_add (lit "EDGE_SPLIT")].

Definition export_events (host : Host) (o : obj) (path : pystr) : list event :=
  let '(file_ext, output_path) := resolve_ext host path in
  if decide (file_ext ∈ [lit ".obj"; lit ".blend"])
  then export_prepare host o output_path ++ [export_operator file_ext output_path]
  else [].

(** The object [main] works on: the active object once the text is added. *)
Definition main_text_obj (host : Host) : obj :=
  active_object host
    [object_select_all (lit "SELECT"); object_delete; object_text_add (0, 0, 0)].

Definition main_font_path (host : Host) (args : namespace) : pystr :=
  join (os_path host) (script_dir host) (font_ args).

Definition default_output_dir (host : Host) : pystr :=
  join (os_path host) (script_dir host) (lit "output").

Definition main_setup (host : Host) (args : namespace) : list event :=
  create_events host [] (text args) (main_font_path host args)
                (depth args) (resolution args) (bevel args)
  ++ [object_origin_set (lit "ORIGIN_CENTER_OF_MASS");
      set_location (main_text_obj host) (0, 0, 0)]
  ++ match output args with
     | Some (_ :: _) => []
     | _ => [os_makedirs (default_output_dir host) true]
     end.

Definition main_output_path (host : Host) (args : namespace) : pystr :=
  match output args with
  | Some (c :: p) => join (os_path host) (script_dir host) (c :: p)
  | _ => join (os_path host) (default_output_dir host)
              (text args ++ lit "_" ++ now host ++ lit ".obj")
  end.

Definition main_events (host : Host) (args : namespace) : list event :=
  if path_exists host (main_font_path host args)
  then main_setup host args
       ++ export_events host (main_text_obj host) (main_output_path host args)
  else [].

(** [m], run from [w], makes the host calls [es] in this order, or a prefix
    of them when it does not return; a value it returns satisfies [Q]. *)
Definition emits {A} (m : M A) (w : world) (es : list event) (Q : A -> Prop) : Prop :=
  exists es',
    trace (m w).2 = trace w ++ es' /\
    es' `prefix_of` es /\
    match (m w).1 with
    | Return a => es' = es /\ Q a
    | _ => True
    end.

(** [m] makes no host call. *)
Definition silent {A} (m : M A) : Prop := forall w, trace (m w).2 = trace w.

(** Where an object is, as far as the log of host calls tells: an assignment
    to [location] fixes it; selecting, activating and making directories
    leave it; after any other call it is not known. *)
Definition location_step (o : obj) (loc : option location) (e : event)
  : option location :=
  match e with
  | set_location o' l => if decide (o' = o) then Some l else loc
  | object_select_all _ | select_set _ _ | set_view_layer_active _
  | os_makedirs _ _ => loc
  | _ => None
  end.

Definition location_of (t : list event) (o : obj) : option location :=
  fold_left (location_step o) t None.

(** The exception of a response, if it is one. *)
Definition raised (r : response) : option exn :=
  match r with
  | Done _ => None
  | Fails e => Some e
  end.

(** The host with other answers to its calls. *)
Definition with_respond (host : Host) (respond' : list event -> event -> response)
  : Host := {|
  argv := argv host;
  script_dir := script_dir host;
  now := now host;
  path_exists := path_exists host;
  TTFont := TTFont host;
  os_path := os_path host;
  lower := lower host;
  unicodedata := unicodedata host;
  format_exc := format_exc host;
  argparse_tokens := argparse_tokens host;
  repr := repr host;
  respond := respond';
  active_object := active_object host
|}.

(** A computation with its value dropped. *)
Definition discard {A} (m : M A) : M unit := m;; mret tt.


(** The stages around the centring: converting, setting the origin, placing
    the object, exporting. *)
Definition centring_stage (e : event) : bool :=
  match e with
  | object_convert _ | object_origin_set _ | set_location _ _
  | wm_obj_export _ _ _ | wm_save_as_mainfile _ => true
  | _ => false
  end.

(** ** Further notions *)

(** The host calls [es] made one after the other from the history [t],
    stopping at the first one that raises: the exception, if any, and the
    history afterwards. *)
Fixpoint run_calls (host : Host) (t es : list event) : option exn * list event :=
  match es with
  | [] => (None, t)
  | e :: es' =>
      match respond host t e with
      | Done _ => run_calls host (t ++ [e]) es'
      | Fails x => (Some x, t ++ [e])
      end
  end.

(** [m], run from [w], is the straight sequence of host calls [es] and then
    returns [a]: it stops with the exception of the first call that raises,
    and prints nothing. *)
Definition performs (host : Host) {A} (m : M A) (w : world) (es : list event) (a : A)
  : Prop :=
  m w = match run_calls host (trace w) es with
        | (None, t') => (Return a, World t' (stdout w))
        | (Some x, t') => (Raise x, World t' (stdout w))
        end.

(** The calls of [main] that are not guarded by a [try]: the set-up, and
    the preparation of the export when the format is supported. *)
Definition main_unguarded (host : Host) (args : namespace) : list event :=
  let '(file_ext, output_path) := resolve_ext host (main_output_path host args) in
  main_setup host args
  ++ (if decide (file_ext ∈ [lit ".obj"; lit ".blend"])
      then export_prepare host (main_text_obj host) output_path
      else []).

(** A computation that makes no host call and always returns. *)
Definition quiet {A} (m : M A) : Prop :=
  forall w, exists a out, m w = (Return a, World (trace w) out).



(** The value of a string of upper-case hexadecimal digits, as [int(s, 16)]
    reads it. *)
Definition hex_digit_value (c : N) : option N :=
  if ((48 <=? c) && (c <=? 57))%N then Some (c - 48)%N
  else if ((65 <=? c) && (c <=? 70))%N then Some (c - 55)%N
  else None.

Fixpoint hex_value_from (acc : N) (s : pystr) : option N :=
  match s with
  | [] => Some acc
  | c :: s' =>
      match hex_digit_value c with
      | Some d => hex_value_from (16 * acc + d)%N s'
      | None => None
      end
  end.

Definition hex_value (s : pystr) : option N :=
  match s with
  | [] => None
  | _ => hex_value_from 0 s
  end.

(** ** [ensure_addons_enabled]

    The function talks to the preferences of the host only, so it has a
    state of its own: the modules passed to [addon_enable] so far and the
    lines printed. *)

Module Addons.

Record preferences := {
  (* addon in bpy.context.preferences.addons, after the given calls *)
  in_addons : list pystr -> pystr -> bool;
  (* how bpy.ops.preferences.addon_enable(module=addon) ends *)
  addon_enable : list pystr -> pystr -> response
}.

Record state := State { enabled_calls : list pystr; printed : list pystr }.

Definition addons : list pystr := [lit "io_scene_obj"; lit "io_mesh_stl"].

(** The body of the loop, for one addon. *)
Definition enable_one (prefs : preferences) (addon : pystr) (s : state) : state :=
  if negb (in_addons prefs (enabled_calls s) addon) then
    match addon_enable prefs (enabled_calls s) addon with
    | Done _ =>
        State (enabled_calls s ++ [addon])
              (printed s ++ [lit "Enabled plugin: " ++ addon])
    | Fails e =>
        State (enabled_calls s ++ [addon])
              (printed s ++ [lit "Failed to enable plugin " ++ addon
                             ++ lit ": " ++ exn_msg e])
    end
  else s.

Fixpoint enable_each (prefs : preferences) (todo : list pystr) (s : state) : state :=
  match todo with
  | [] => s
  | addon :: todo' => enable_each prefs todo' (enable_one prefs addon s)
  end.

Definition ensure_addons_enabled (prefs : preferences) (s : state) : state :=
  enable_each prefs addons s.

(** Preferences in which an addon is listed once it was enabled with
    success, and [io_mesh_stl] cannot be enabled. *)
Definition no_stl : preferences := {|
  in_addons := fun calls addon =>
    bool_decide (addon ∈ calls) && bool_decide (addon ≠ lit "io_mesh_stl");
  addon_enable := fun _ addon =>
    if decide (addon = lit "io_mesh_stl")
    then Fails (Exn "RuntimeError" (lit "No module named 'io_mesh_stl'"))
    else Done FINISHED
|}.

(** Preferences in which an addon is listed once it was enabled with
    success, and [io_scene_obj] cannot be enabled. *)
Definition no_obj : preferences := {|
  in_addons := fun calls addon =>
    bool_decide (addon ∈ calls) && bool_decide (addon ≠ lit "io_scene_obj");
  addon_enable := fun _ addon =>
    if decide (addon = lit "io_scene_obj")
    then Fails (Exn "RuntimeError" (lit "No module named 'io_scene_obj'"))
    else Done FINISHED
|}.

End Addons.

(** ** More sample hosts *)

(** Only [os.makedirs] raises. *)
Definition makedirs_fails : list event -> event -> response := fun _ e =>
  match e with
  | os_makedirs _ _ => Fails (Exn "PermissionError" (lit "[Errno 13] Permission denied"))
  | _ => Done FINISHED
  end.

(** The host with another file system: which paths exist, what the font
    reader finds. *)
Definition with_files (host : Host) (exists_ : pystr -> bool)
    (font : pystr -> exn + ttfont) : Host := {|
  argv := argv host;
  script_dir := script_dir host;
  now := now host;
  path_exists := exists_;
  TTFont := font;
  os_path := os_path host;
  lower := lower host;
  unicodedata := unicodedata host;
  format_exc := format_exc host;
  argparse_tokens := argparse_tokens host;
  repr := repr host;
  respond := respond host;
  active_object := active_object host
|}.

(** A font without a Unicode cmap: [getBestCmap()] is [None]. *)
Definition symbol_font : pystr -> exn + ttfont :=
  fun _ => inr {| getBestCmap := inr None |}.

(** Two computations that, run from worlds with the same host calls so far,
    end the same way after the same host calls; what they print may
    differ. *)
Definition same_calls {A} (m1 m2 : M A) : Prop :=
  forall w1 w2, trace w1 = trace w2 ->
    (m1 w1).1 = (m2 w2).1 /\ trace (m1 w1).2 = trace (m2 w2).2.

(** ** Library functions on sample inputs *)

Example splitext_obj :
  splitext 47 None (lit "/tmp/out/Hello.OBJ") = (lit "/tmp/out/Hello", lit ".OBJ").
Proof. reflexivity. Qed.

Example splitext_dotfile :
  splitext 47 None (lit "/a.b/.bashrc") = (lit "/a.b/.bashrc", []).
Proof. reflexivity. Qed.

Example splitext_nt :
  splitext 92 (Some 47%N) (lit "C:\out.dir/mesh") = (lit "C:\out.dir/mesh", []).
Proof. reflexivity. Qed.

Example format_04X_cjk : format_04X 20013 = lit "4E2D".
Proof. reflexivity. Qed.

Example format_04X_small : format_04X 10 = lit "000A".
Proof. reflexivity. Qed.

Example dirname_file : posix_dirname (lit "/srv/out/a.obj") = lit "/srv/out".
Proof. reflexivity. Qed.

Example dirname_bare : posix_dirname (lit "a.obj") = [].
Proof. reflexivity. Qed.

(** ** Running the monad *)

Lemma run_bind {A B} (m : M A) (k : A -> M B) w :
  (m ≫= k) w =
  match m w with
  | (Return a, w') => k a w'
  | (Raise e, w') => (Raise e, w')
  | (Exit c, w') => (Exit c, w')
  end.
Proof. reflexivity. Qed.

Lemma run_ret {A} (a : A) w : mret (M := M) a w = (Return a, w).
Proof. reflexivity. Qed.

Lemma run_print line w :
  print line w = (Return tt, World (trace w) (stdout w ++ [line])).
Proof. reflexivity. Qed.

Lemma run_exec host e w :
  exec host e w =
  match respond host (trace w) e with
  | Done _ => (Return tt, World (trace w ++ [e]) (stdout w))
  | Fails x => (Raise x, World (trace w ++ [e]) (stdout w))
  end.
Proof. unfold exec. by destruct (respond _ _ _). Qed.

Ltac run_step :=
  first [rewrite run_bind | rewrite run_print | rewrite run_ret]; cbn beta iota.
Ltac run := repeat run_step; cbn [trace stdout].

(** ** [export_mesh] and [parse_args] *)

(** C8. Called with [output_path = None], [export_mesh] reads the name
    [original_text], which is bound neither among its locals nor in the
    module nor in the builtins: the call raises [NameError] and leaves the
    world as it was (no directory made, no operator invoked, nothing
    printed), whatever the host. *)
Theorem export_mesh_none_raises_NameError (host : Host) (o : obj) (w : world) :
  assoc "original_text" [("obj", VObj o); ("output_path", VNone)]%string = None /\
  assoc "original_text" module_globals = None /\
  assoc "original_text" builtins = None /\
  export_mesh host o None w =
    (Raise (Exn "NameError" (lit "name 'original_text' is not defined")), w).
Proof.
  split_and!; [reflexivity..|].
  unfold export_mesh. rewrite run_bind.
  unfold load_name. rewrite run_bind. reflexivity.
Qed.

(** C2, as the code has it: an output path whose lower-cased extension is
    not empty and is neither ".obj" nor ".blend" makes [export_mesh] print
    the two lines of the unsupported-format error and return [False]; the
    log of host calls is unchanged, so no export operator was invoked and no
    directory was made. *)
Theorem export_mesh_unsupported_format (host : Host) (o : obj) (path : pystr) (w : world) :
  let file_ext := lower host (path_splitext host path).2 in
  file_ext ≠ [] ->
  file_ext ∉ [lit ".obj"; lit ".blend"] ->
  export_mesh host o (Some path) w =
    (Return false,
     World (trace w)
           (stdout w ++ [lit "Error: Unsupported file format " ++ file_ext;
                         lit "Supported formats: .obj, .blend"])).
Proof.
  intros file_ext Hne Hun. unfold export_mesh. run_step. run_step.
  fold file_ext. rewrite (decide_False (P := file_ext = [])) by done.
  rewrite decide_True by done. run.
  by rewrite <- app_assoc.
Qed.

(** C3. For a path that resolves to a supported extension, once the output
    directory is made and the object selected, [export_mesh] invokes the
    operator of that extension (the OBJ exporter with selected objects only
    and no materials for ".obj", save-as-main-file for ".blend"); it returns
    [True] after "Exported to" when the operator completes, and [False]
    after printing the error and the traceback when the operator raises. *)
Theorem export_mesh_dispatch (host : Host) (o : obj) (path : pystr) (w : world)
    (file_ext output_path : pystr) :
  resolve_ext host path = (file_ext, output_path) ->
  file_ext ∈ [lit ".obj"; lit ".blend"] ->
  completes host (trace w) (export_prepare host o output_path) = true ->
  let t := trace w ++ export_prepare host o output_path in
  let op :=
    if decide (file_ext = lit ".obj") then wm_obj_export output_path true false
    else wm_save_as_mainfile output_path in
  export_mesh host o (Some path) w =
    match respond host t op with
    | Done _ =>
        (Return true,
         World (t ++ [op]) (stdout w ++ [lit "Exported to: " ++ output_path]))
    | Fails e =>
        (Return false,
         World (t ++ [op])
               (stdout w ++ [lit "Export failed: " ++ exn_msg e; format_exc host e]))
    end.
Proof.
  unfold resolve_ext, export_mesh. run_step. run_step.
  destruct (decide (lower host (path_splitext host path).2 = [])) as [He|He].
  all: intros [= <- <-] Hin Hprep.
  all: rewrite decide_False by (intros Hn; done).
  all: cbn [completes export_prepare] in Hprep.
  all: repeat match type of Hprep with
         | match respond ?h ?t ?e with _ => _ end = true =>
             destruct (respond h t e) eqn:?; [|discriminate]
         end.
  all: repeat (rewrite run_bind, run_exec; cbn [trace stdout];
               match goal with
               | H : respond _ _ _ = Done _ |- _ => rewrite H; clear H
               end;
               cbn beta iota).
  all: unfold try_except, export_prepare.
  all: rewrite <- !app_assoc; cbn [app].
  - rewrite decide_True by done. rewrite run_bind, run_exec. cbn [trace stdout].
    destruct (respond _ _ _); cbn beta iota; run; rewrite <- ?app_assoc; reflexivity.
  - apply elem_of_cons in Hin as [->|Hin]; [|apply list_elem_of_singleton in Hin as ->].
    + rewrite decide_True by done. rewrite run_bind, run_exec. cbn [trace stdout].
      destruct (respond _ _ _); cbn beta iota; run; rewrite <- ?app_assoc; reflexivity.
    + rewrite (decide_False (P := lit ".blend" = lit ".obj"))
        by (intros Hn; vm_compute in Hn; discriminate).
      rewrite decide_True by done. rewrite run_bind, run_exec. cbn [trace stdout].
      destruct (respond _ _ _); cbn beta iota; run; rewrite <- ?app_assoc; reflexivity.
Qed.

(** C9. When "--" does not occur in [sys.argv], [parse_args] hands the
    parser an empty list, and every option has its default, whatever else
    the command line holds. *)
Theorem parse_args_without_separator (host : Host) (w : world) :
  lit "--" ∉ argv host ->
  parse_args host w =
    (Return {| text := lit "hello";
               font_ := lit ".\fonts\hp.ttf";
               depth := Dec 2 (-1);
               resolution := 32;
               bevel := Dec 1 (-2);
               output := None |}, w).
Proof.
  intros Hsep. unfold parse_args. by rewrite decide_False.
Qed.

(** ** [check_font_support] *)

Lemma scan_with_script host script m text acc :
  ud_script (unicodedata host) = Some script ->
  scan host (Some m) text acc =
    Return (acc ++ map (describe host script) (List.filter (unsupported m) text)).
Proof.
  intros Hs. revert acc.
  induction text as [|c text IH]; intros acc; cbn [scan List.filter map].
  - by rewrite app_nil_r.
  - fold (unsupported m c). rewrite Hs.
    destruct (unsupported m c); rewrite IH; [|done].
    by rewrite <- app_assoc.
Qed.

Lemma scan_without_script host m text acc :
  ud_script (unicodedata host) = None ->
  scan host (Some m) text acc =
    if forallb (fun c => negb (unsupported m c)) text then Return acc
    else Raise (AttributeError_script).
Proof.
  intros Hs.
  induction text as [|c text IH]; cbn [scan forallb]; [done|].
  fold (unsupported m c). rewrite Hs.
  by destruct (unsupported m c).
Qed.

Lemma scan_no_exit host cmap text acc code :
  scan host cmap text acc ≠ Exit code.
Proof.
  revert acc. induction text as [|c text IH]; intros acc; cbn [scan]; [done|].
  destruct cmap as [m|]; [|done].
  destruct (_ && _); [|apply IH].
  destruct (ud_script _); [apply IH|done].
Qed.

Lemma font_check_no_exit host font_path text code :
  font_check host font_path text ≠ Exit code.
Proof.
  unfold font_check. destruct (TTFont _ _) as [e|f]; [done|].
  destruct (getBestCmap f) as [e|c]; [done|]. apply scan_no_exit.
Qed.

Lemma run_check_font_support host font_path text w :
  check_font_support host font_path text w =
    match font_check host font_path text with
    | Return l => (Return (bool_decide (length l = 0%nat), l), w)
    | Raise e =>
        (Return (true, []),
         World (trace w) (stdout w ++ [font_check_warning e]))
    | Exit c => (Exit c, w)
    end.
Proof.
  unfold check_font_support, font_check, try_except.
  rewrite run_bind. destruct (TTFont _ _) as [e|f]; [reflexivity|].
  cbn. rewrite run_bind. destruct (getBestCmap f) as [e|c]; [reflexivity|].
  cbn. rewrite run_bind. unfold lift.
  by destruct (scan host c text []).
Qed.

(** The scan the font check is meant to be: with a [script] function at
    hand, a font that loads and a cmap, the result says whether every
    character that is not white space is in the cmap, and lists the others
    in text order with name, category and script. *)
Lemma check_font_support_with_script host script font m font_path text w :
  ud_script (unicodedata host) = Some script ->
  TTFont host font_path = inr font ->
  getBestCmap font = inr (Some m) ->
  check_font_support host font_path text w =
    (Return (forallb (fun c => negb (unsupported m c)) text,
             map (describe host script) (List.filter (unsupported m) text)), w).
Proof.
  intros Hs Hf Hc. rewrite run_check_font_support. unfold font_check.
  rewrite Hf, Hc, (scan_with_script _ script) by done. cbn [app].
  do 2 f_equal.
  induction text as [|c text IH]; [done|]. cbn [forallb List.filter].
  destruct (unsupported m c); cbn [negb andb map length]; [|done].
  by rewrite bool_decide_eq_false_2.
Qed.

(** Without it, as under CPython, the check reports full support for every
    text. *)
Lemma check_font_support_without_script host font m font_path text w :
  ud_script (unicodedata host) = None ->
  TTFont host font_path = inr font ->
  getBestCmap font = inr (Some m) ->
  (check_font_support host font_path text w).1 = Return (true, []).
Proof.
  intros Hs Hf Hc. rewrite run_check_font_support. unfold font_check.
  rewrite Hf, Hc, scan_without_script by done.
  by destruct (forallb _ _).
Qed.

(** C7. [check_font_support] always returns a pair, never raises, and makes
    no host call; the first component is [True] exactly when the second is
    the empty list.  When loading the font, fetching the cmap or scanning
    raises, the pair is [(True, [])] and the warning is printed. *)
Theorem check_font_support_invariant (host : Host) (font_path text : pystr) (w : world) :
  exists (is_supported : bool) (unsupported_chars : list char_info) (w' : world),
    check_font_support host font_path text w
      = (Return (is_supported, unsupported_chars), w') /\
    (is_supported = true <-> unsupported_chars = []) /\
    trace w' = trace w /\
    (forall e, font_check host font_path text = Raise e ->
       is_supported = true /\ unsupported_chars = [] /\
       stdout w' = stdout w ++ [font_check_warning e]).
Proof.
  rewrite run_check_font_support.
  destruct (font_check host font_path text) as [l|e|c] eqn:Hfc.
  - exists (bool_decide (length l = 0%nat)), l, w. split_and!; try done.
    rewrite bool_decide_eq_true. by destruct l.
  - exists true, [], (World (trace w) (stdout w ++ [font_check_warning e])).
    split_and!; try done. by intros ? [= <-].
  - by apply font_check_no_exit in Hfc.
Qed.

(** C1, where the code departs from it.  Under CPython's [unicodedata] the
    font loads and has a cmap, the text "Hi" followed by a space and U+4E2D holds a character that is
    not white space and is missing from the cmap, and yet the check answers
    [(True, [])]: looking up [unicodedata.script] raises inside the [try],
    and the handler prints the warning and reports full support. *)
Theorem check_font_support_hides_unsupported :
  let host := Sample.host Sample.cpython_unicodedata [] Sample.all_done in
  let text := [72; 105; 32; 20013]%N in
  TTFont host (lit "/srv/gen/hp.ttf") = inr {| getBestCmap := inr (Some Sample.latin_cmap) |} /\
  List.filter (unsupported Sample.latin_cmap) text = [20013%N] /\
  check_font_support host (lit "/srv/gen/hp.ttf") text init =
    (Return (true, []),
     World [] [lit "Warning: Font check failed - module 'unicodedata' has no attribute 'script'"]).
Proof. split_and!; reflexivity. Qed.

(** The same font and text where [unicodedata] has a [script] function: the
    character is reported. *)
Example check_font_support_lists_unsupported :
  check_font_support (Sample.host Sample.scripted_unicodedata [] Sample.all_done)
                     (lit "/srv/gen/hp.ttf") [72; 105; 32; 20013]%N init =
    (Return (false,
             [{| ci_char := 20013;
                 ci_name := lit "CJK UNIFIED IDEOGRAPH-4E2D";
                 ci_category := lit "Lo";
                 ci_script := lit "Hani" |}]), init).
Proof. reflexivity. Qed.

(** ** The order of host calls *)

Section Emits.

Context (host : Host).

Lemma emits_bind {A B} (m : M A) (k : A -> M B) w es1 es2 Q R :
  emits m w es1 Q ->
  (forall a w', Q a -> trace w' = trace w ++ es1 -> emits (k a) w' es2 R) ->
  emits (m ≫= k) w (es1 ++ es2) R.
Proof.
  intros (es1' & Ht & Hp & Hr) Hk. unfold emits. rewrite run_bind.
  destruct (m w) as [[a|e|c] w'] eqn:Hm; cbn [fst snd] in *.
  - destruct Hr as [-> HQ].
    destruct (Hk a w' HQ Ht) as (es2' & Ht2 & Hp2 & Hr2).
    exists (es1 ++ es2'). split_and!.
    + by rewrite Ht2, Ht, app_assoc.
    + by apply prefix_app.
    + destruct ((k a w').1); [|done..]. by destruct Hr2 as [-> ?].
  - exists es1'. split_and!; [done| |done]. by apply prefix_app_r.
  - exists es1'. split_and!; [done| |done]. by apply prefix_app_r.
Qed.

Lemma emits_exec e w : emits (exec host e) w [e] (fun _ => True).
Proof.
  exists [e]. rewrite run_exec.
  by destruct (respond host (trace w) e).
Qed.

Lemma emits_exec_bind {B} e (k : unit -> M B) w es R :
  (forall w', trace w' = trace w ++ [e] -> emits (k tt) w' es R) ->
  emits (exec host e ≫= k) w (e :: es) R.
Proof.
  intros Hk. apply (emits_bind _ _ _ [e] es _ _ (emits_exec e w)).
  intros [] w' _. apply Hk.
Qed.

Lemma emits_silent {A} (m : M A) w : silent m -> emits m w [] (fun _ => True).
Proof.
  intros Hs. exists []. rewrite Hs, app_nil_r.
  split_and!; [done..|]. by destruct ((m w).1).
Qed.

Lemma emits_silent_bind {A B} (m : M A) (k : A -> M B) w es R :
  silent m ->
  (forall a w', trace w' = trace w -> emits (k a) w' es R) ->
  emits (m ≫= k) w es R.
Proof.
  intros Hs Hk. apply (emits_bind _ _ _ [] es _ _ (emits_silent m w Hs)).
  intros a w' _. rewrite app_nil_r. apply Hk.
Qed.

Lemma emits_ret {A} (a : A) w (Q : A -> Prop) : Q a -> emits (mret a) w [] Q.
Proof. intros HQ. exists []. by rewrite run_ret, app_nil_r. Qed.

Lemma emits_active_bind {B} (k : obj -> M B) w es R :
  emits (k (active_object host (trace w))) w es R ->
  emits (get_active_object host ≫= k) w es R.
Proof. unfold emits. by rewrite run_bind. Qed.

Lemma silent_ret {A} (a : A) : silent (mret a).
Proof. done. Qed.

Lemma silent_print line : silent (print line).
Proof. done. Qed.

Lemma silent_lift {A} (r : outcome A) : silent (lift r).
Proof. done. Qed.

Lemma silent_bind {A B} (m : M A) (k : A -> M B) :
  silent m -> (forall a, silent (k a)) -> silent (m ≫= k).
Proof.
  intros Hm Hk w. rewrite run_bind. specialize (Hm w).
  destruct (m w) as [[a|e|c] w']; cbn [snd] in *; [|done..].
  by rewrite Hk.
Qed.

Lemma silent_for_each {A} (xs : list A) (body : A -> M unit) :
  (forall x, silent (body x)) -> silent (for_each xs body).
Proof.
  intros Hb. induction xs as [|x xs IH]; [apply silent_ret|].
  apply silent_bind; [apply Hb|by intros []].
Qed.

Lemma silent_check_font_support font_path text :
  silent (check_font_support host font_path text).
Proof.
  intros w. rewrite run_check_font_support.
  by destruct (font_check host font_path text).
Qed.

Lemma emits_create_text_mesh text font_path d r b w :
  emits (create_text_mesh host text font_path d r b) w
        (create_events host (trace w) text font_path d r b)
        (fun a => a = (active_object host
           (trace w ++ [object_select_all (lit "SELECT"); object_delete; object_text_add (0, 0, 0)]), text)).
Proof.
  unfold create_text_mesh, create_events.
  apply emits_exec_bind; intros w1 H1.
  apply emits_exec_bind; intros w2 H2.
  apply emits_exec_bind; intros w3 H3.
  apply emits_active_bind.
  rewrite H3, H2, H1, <- !app_assoc. cbn [app].
  do 10 (apply emits_exec_bind; intros ? _).
  by apply emits_ret.
Qed.

Lemma emits_get_default_output_path text file_ext w :
  emits (get_default_output_path host text file_ext) w
        [os_makedirs (default_output_dir host) true]
        (fun p => p = join (os_path host) (default_output_dir host)
                        (text ++ lit "_" ++ now host ++ file_ext)).
Proof.
  unfold get_default_output_path.
  apply emits_exec_bind; intros ? _. by apply emits_ret.
Qed.


Lemma emits_ret_bind {A B} (a : A) (k : A -> M B) w es R :
  emits (k a) w es R -> emits (mret a ≫= k) w es R.
Proof. unfold emits. by rewrite run_bind, run_ret. Qed.

Lemma emits_try_exec {A} e (k : M A) (handler : exn -> M A) w :
  silent k -> (forall x, silent (handler x)) ->
  emits (try_except (exec host e;; k) handler) w [e] (fun _ => True).
Proof.
  intros Hk Hh. exists [e]. unfold try_except. rewrite run_bind, run_exec.
  destruct (respond host (trace w) e) as [s|x].
  - specialize (Hk (World (trace w ++ [e]) (stdout w))).
    destruct (k _) as [[a|x|c] w'] eqn:Hkw; cbn [fst snd trace] in *.
    + done.
    + rewrite Hh, Hk. split_and!; [done..|]. by destruct ((handler x w').1).
    + done.
  - rewrite Hh. cbn [trace]. split_and!; [done..|].
    by destruct ((handler x _).1).
Qed.

Lemma emits_export_mesh o path w :
  emits (export_mesh host o (Some path)) w (export_events host o path) (fun _ => True).
Proof.
  unfold export_mesh, export_events, resolve_ext.
  apply emits_ret_bind.
  destruct (decide (lower host (path_splitext host path).2 = [])) as [He|He].
  all: match goal with
       | |- context [decide (?x ∈ ?l)] => destruct (decide (x ∈ l)) as [Hin|Hin]
       end.
  all: try (rewrite decide_True by done; apply emits_silent;
            repeat (apply silent_bind; [apply silent_print|intros ?]);
            apply silent_ret).
  all: rewrite decide_False by (intros Hn; done).
  all: cbn [export_prepare app].
  all: do 4 (apply emits_exec_bind; intros ? _).
  all: unfold export_operator.
  - rewrite !decide_True by done.
    apply emits_try_exec; intros; repeat (apply silent_bind; [apply silent_print|intros ?]); apply silent_ret.
  - apply elem_of_cons in Hin as [Hin|Hin]; [|apply list_elem_of_singleton in Hin].
    + rewrite !(decide_True (P := _ = lit ".obj")) by done.
      apply emits_try_exec; intros; repeat (apply silent_bind; [apply silent_print|intros ?]); apply silent_ret.
    + rewrite Hin. rewrite !(decide_False (P := lit ".blend" = lit ".obj"))
        by (intros Hn; vm_compute in Hn; discriminate).
      rewrite decide_True by done.
      apply emits_try_exec; intros; repeat (apply silent_bind; [apply silent_print|intros ?]); apply silent_ret.
Qed.


Lemma emits_bind_pure {A B} (m : M A) (k : A -> M B) a w es R :
  m w = (Return a, w) -> emits (k a) w es R -> emits (m ≫= k) w es R.
Proof. intros Hm. unfold emits. by rewrite run_bind, Hm. Qed.

Lemma emits_main args :
  (parse_args host init).1 = Return args ->
  emits (main host) init (main_events host args) (fun _ => True).
Proof.
  intros Hargs. unfold main, main_with, main_events.
  apply (emits_bind_pure _ _ args).
  { revert Hargs. unfold parse_args, lift. cbn. by intros ->. }
  fold (main_font_path host args).
  destruct (path_exists host (main_font_path host args)); cbn [negb].
  2: { apply emits_silent, silent_print. }
  apply emits_silent_bind; [apply silent_check_font_support|].
  intros [is_supported unsupported_chars] w1 H1.
  apply emits_silent_bind.
  { destruct is_supported; cbn [negb]; [apply silent_ret|].
    apply silent_bind; [apply silent_print|intros ?].
    apply silent_bind; [|intros ?; apply silent_print].
    apply silent_for_each. intros ci.
    repeat (apply silent_bind; [apply silent_print|intros ?]). apply silent_print. }
  intros [] w2 H2.
  unfold main_setup. rewrite <- app_assoc.
  assert (Ht2 : trace w2 = []) by (by rewrite H2, H1).
  eapply emits_bind.
  { pose proof (emits_create_text_mesh (text args) (main_font_path host args)
                  (depth args) (resolution args) (bevel args) w2) as Hc.
    rewrite Ht2 in Hc. exact Hc. }
  cbn [app]. fold (main_text_obj host).
  intros [text_obj original_text] w3 [= -> ->] H3.
  cbn [app].
  do 2 (apply emits_exec_bind; intros ? _).
  destruct (output args) as [[|c p]|] eqn:Hout; unfold main_output_path; rewrite Hout.
  2: { apply emits_ret_bind. cbn [app].
       rewrite <- (app_nil_r (export_events _ _ _)).
       eapply emits_bind; [apply emits_export_mesh|].
       intros ? ? _ _. by apply emits_ret. }
  all: change (?x :: ?l) with ([x] ++ l).
  all: eapply emits_bind; [apply emits_get_default_output_path|].
  all: intros ? ? -> _.
  all: rewrite <- (app_nil_r (export_events _ _ _)).
  all: (eapply emits_bind; [apply emits_export_mesh|]).
  all: intros ? ? _ _; by apply emits_ret.
Qed.

Lemma export_position (l : list event) x pre e rest :
  Forall (fun y => is_export y = false) l ->
  l ++ [x] = pre ++ e :: rest ->
  is_export e = true ->
  pre = l /\ e = x /\ rest = [].
Proof.
  intros Hl. revert pre.
  induction Hl as [|a l Ha Hl IH]; intros [|p pre] Heq He; simplify_eq/=.
  - done.
  - by destruct pre.
  - congruence.
  - by destruct (IH pre) as (-> & -> & ->).
Qed.

Lemma no_export (l : list event) pre e rest :
  Forall (fun y => is_export y = false) l ->
  l = pre ++ e :: rest -> is_export e = true -> False.
Proof.
  intros Hl -> He. apply Forall_app in Hl as [_ Hl].
  apply Forall_cons in Hl as [Hl _]. congruence.
Qed.

Lemma main_setup_no_export args o p :
  Forall (fun y => is_export y = false) (main_setup host args ++ export_prepare host o p).
Proof.
  unfold main_setup, create_events, export_prepare.
  destruct (output args) as [[|? ?]|]; cbn [app]; repeat constructor.
Qed.

Lemma run_parse_args :
  parse_args host init = ((parse_args host init).1, init).
Proof. reflexivity. Qed.

Lemma main_without_args :
  (forall args, (parse_args host init).1 <> Return args) ->
  trace (main host init).2 = [].
Proof.
  intros Hno. unfold main, main_with. rewrite run_bind, run_parse_args.
  destruct ((parse_args host init).1) as [args| |]; [|done..].
  by destruct (Hno args).
Qed.

Lemma main_export_position pre e post :
  trace (main host init).2 = pre ++ e :: post ->
  is_export e = true ->
  exists args,
    (parse_args host init).1 = Return args /\
    pre = main_setup host args
          ++ export_prepare host (main_text_obj host)
               (resolve_ext host (main_output_path host args)).2 /\
    post = [].
Proof.
  intros Ht He.
  destruct ((parse_args host init).1) as [args|x|c] eqn:Hargs.
  2,3: rewrite main_without_args in Ht by (rewrite Hargs; done); by destruct pre.
  exists args. split; [done|].
  destruct (emits_main args Hargs) as (es' & Hes & [k Hk] & _).
  rewrite Ht in Hes. cbn [init trace app] in Hes. subst es'.
  unfold main_events in Hk.
  destruct (path_exists host (main_font_path host args)).
  2: { by destruct pre. }
  unfold export_events in Hk.
  destruct (resolve_ext host (main_output_path host args)) as [file_ext output_path].
  cbn [snd].
  destruct (decide (file_ext ∈ _)).
  - rewrite app_assoc, <- (app_assoc pre), <- app_comm_cons in Hk.
    destruct (export_position _ _ _ _ _ (main_setup_no_export args _ _) Hk He)
      as (-> & _ & Hnil).
    by apply app_eq_nil in Hnil as [-> _].
  - exfalso. rewrite app_nil_r, <- (app_nil_r (main_setup host args)) in Hk.
    pose proof (main_setup_no_export args 0%N []) as Hno.
    unfold export_prepare in Hno. apply Forall_app in Hno as [Hno _].
    rewrite app_nil_r, <- app_assoc, <- app_comm_cons in Hk.
    exact (no_export _ _ _ _ Hno Hk He).
Qed.

Lemma filter_prefix (f : event -> bool) (l1 l2 : list event) :
  l1 `prefix_of` l2 -> List.filter f l1 `prefix_of` List.filter f l2.
Proof. intros [k ->]. rewrite List.filter_app. by apply prefix_app_r. Qed.

Lemma main_trace_prefix args :
  (parse_args host init).1 = Return args ->
  trace (main host init).2 `prefix_of` main_events host args.
Proof.
  intros Hargs. destruct (emits_main args Hargs) as (es' & Hes & Hp & _).
  by rewrite Hes.
Qed.


(** C6. In every run of [main] the conversion to a mesh, the origin set to
    the centre of mass, the location set to (0, 0, 0) and the export come in
    this order.  In a run that reaches an export operator, what lies between
    the assignment of the location and the export only makes the output
    directory and selects the object, so the object is at the origin when it
    is exported. *)
Theorem main_centers_before_export :
  let text_obj := main_text_obj host in
  (exists op,
     is_export op = true /\
     List.filter centring_stage (trace (main host init).2)
     `prefix_of`
       [object_convert (lit "MESH");
        object_origin_set (lit "ORIGIN_CENTER_OF_MASS");
        set_location text_obj (0, 0, 0);
        op]) /\
  (forall pre e post,
     trace (main host init).2 = pre ++ e :: post ->
     is_export e = true ->
     exists before after,
       pre = before
             ++ [object_origin_set (lit "ORIGIN_CENTER_OF_MASS");
                 set_location text_obj (0, 0, 0)]
             ++ after /\
       object_convert (lit "MESH") ∈ before /\
       select_set text_obj true ∈ after /\
       location_of pre text_obj = Some (0, 0, 0)).
Proof.
  intros text_obj. split.
  - destruct ((parse_args host init).1) as [args|x|c] eqn:Hargs.
    2,3: exists (wm_save_as_mainfile []); split; [done|];
         rewrite main_without_args by (rewrite Hargs; done); apply prefix_nil.
    pose proof (filter_prefix centring_stage _ _ (main_trace_prefix args Hargs)) as Hp.
    unfold main_events in Hp.
    destruct (path_exists host (main_font_path host args)).
    2: { exists (wm_save_as_mainfile []). split; [done|].
         etrans; [exact Hp|]. apply prefix_nil. }
    rewrite List.filter_app in Hp.
    assert (Hs : List.filter centring_stage (main_setup host args) =
                 [object_convert (lit "MESH");
                  object_origin_set (lit "ORIGIN_CENTER_OF_MASS");
                  set_location text_obj (0, 0, 0)]).
    { unfold main_setup, create_events. by destruct (output args) as [[|? ?]|]. }
    rewrite Hs in Hp. clear Hs. unfold export_events in Hp.
    destruct (resolve_ext host (main_output_path host args)) as [file_ext output_path].
    destruct (decide (file_ext ∈ _)).
    + exists (export_operator file_ext output_path).
      unfold export_operator in *.
      destruct (decide (file_ext = lit ".obj")); (split; [done|exact Hp]).
    + exists (wm_save_as_mainfile []). split; [done|].
      etrans; [exact Hp|]. cbn [List.filter]. rewrite app_nil_r.
      by exists [wm_save_as_mainfile []].
  - intros pre e post Ht He.
    destruct (main_export_position pre e post Ht He) as (args & _ & -> & ->).
    unfold main_setup. rewrite <- !app_assoc.
    eexists _, _. split_and!; [reflexivity|..].
    + unfold create_events. set_solver.
    + unfold export_prepare. set_solver.
    + unfold location_of. rewrite !fold_left_app.
      cbn [fold_left location_step]. fold text_obj.
      rewrite decide_True by done.
      by destruct (output args) as [[|? ?]|].
Qed.

End Emits.

(** ** What [main] does with results *)

Lemma bind_ext {A B} (m1 m2 : M A) (k1 k2 : A -> M B) w :
  m1 w = m2 w -> (forall a w', k1 a w' = k2 a w') -> (m1 ≫= k1) w = (m2 ≫= k2) w.
Proof.
  intros Hm Hk. rewrite !run_bind, Hm.
  by destruct (m2 w) as [[a|e|c] w'].
Qed.

Lemma try_except_ext {A} (m1 m2 : M A) (h1 h2 : exn -> M A) w :
  m1 w = m2 w -> (forall e w', h1 e w' = h2 e w') ->
  try_except m1 h1 w = try_except m2 h2 w.
Proof.
  intros Hm Hh. unfold try_except. rewrite Hm.
  by destruct (m2 w) as [[a|e|c] w'].
Qed.

Section Agree.
Context (host : Host) (respond' : list event -> event -> response).
Hypothesis agree : forall t e, raised (respond' t e) = raised (respond host t e).

Lemma exec_agree e w : exec (with_respond host respond') e w = exec host e w.
Proof.
  rewrite !run_exec. cbn [with_respond respond]. specialize (agree (trace w) e).
  destruct (respond' _ _), (respond host _ _); by simplify_eq/=.
Qed.

Ltac agree_step :=
  first [ apply exec_agree
        | reflexivity
        | apply bind_ext; [|intros ? ?]
        | apply try_except_ext; [|intros ? ?] ].

Lemma create_text_mesh_agree text font_path d r b w :
  create_text_mesh (with_respond host respond') text font_path d r b w
  = create_text_mesh host text font_path d r b w.
Proof. unfold create_text_mesh. repeat agree_step. Qed.

Lemma get_default_output_path_agree text ext w :
  get_default_output_path (with_respond host respond') text ext w
  = get_default_output_path host text ext w.
Proof. unfold get_default_output_path. repeat agree_step. Qed.

Lemma export_mesh_agree o p w :
  export_mesh (with_respond host respond') o p w = export_mesh host o p w.
Proof.
  unfold export_mesh. apply bind_ext.
  { destruct p; [done|]. apply bind_ext; [done|]. intros. apply get_default_output_path_agree. }
  intros output_path w'. cbn [with_respond lower os_path format_exc].
  change (path_splitext (with_respond host respond')) with (path_splitext host).
  destruct (decide (lower host (path_splitext host output_path).2 = [])).
  all: destruct (decide (_ ∉ _)); [done|].
  all: repeat agree_step.
  all: repeat (destruct (decide _); repeat agree_step).
Qed.

Lemma main_agree w :
  main (with_respond host respond') w = main host w.
Proof.
  unfold main, main_with. apply bind_ext; [done|]. intros args w1.
  cbn [with_respond path_exists os_path script_dir].
  destruct (negb _); [done|].
  apply bind_ext; [done|]. intros [is_supported unsupported_chars] w2.
  apply bind_ext; [done|]. intros [] w3.
  apply bind_ext; [apply create_text_mesh_agree|]. intros [text_obj original_text] w4.
  do 2 (apply bind_ext; [apply exec_agree|intros [] ?]).
  apply bind_ext.
  { destruct (output args) as [[|? ?]|]; [|done|]; apply get_default_output_path_agree. }
  intros output_path w5.
  apply bind_ext; [apply export_mesh_agree|done].
Qed.

End Agree.

Lemma main_with_discard host export1 export2 w :
  (forall o p w', discard (export1 o p) w' = discard (export2 o p) w') ->
  main_with host export1 w = main_with host export2 w.
Proof.
  intros Hexp. unfold main_with. apply bind_ext; [done|]. intros args w1.
  destruct (negb _); [done|].
  apply bind_ext; [done|]. intros [is_supported unsupported_chars] w2.
  apply bind_ext; [done|]. intros [] w3.
  apply bind_ext; [done|]. intros [text_obj original_text] w4.
  do 3 (apply bind_ext; [done|intros ? ?]).
  apply Hexp.
Qed.

Lemma discard_fmap {A B} (m : M A) (f : A -> B) w :
  discard (a ← m; mret (f a)) w = discard m w.
Proof.
  unfold discard. rewrite !run_bind.
  by destruct (m w) as [[a|e|c] w'].
Qed.

(** ** The theorems at work on sample hosts *)

(** C2, as stated, fails: a path without extension has an extension that is
    neither ".obj" nor ".blend", and [export_mesh] gives it ".obj", makes
    the directory, invokes the OBJ exporter and returns [True]. *)
Lemma export_mesh_extensionless_exports :
  let host := Sample.host Sample.cpython_unicodedata [] Sample.all_done in
  let path := lit "/srv/out/model" in
  ((lower host (path_splitext host path).2 ∉ [lit ".obj"; lit ".blend"]) /\
   export_mesh host 1%N (Some path) init =
     (Return true,
      World [os_makedirs (lit "/srv/out") true;
             object_select_all (lit "DESELECT");
             select_set 1%N true;
             set_view_layer_active 1%N;
             wm_obj_export (lit "/srv/out/model.obj") true false]
            [lit "Exported to: /srv/out/model.obj"])).
Proof.
  split; [|reflexivity].
  apply (bool_decide_unpack _). reflexivity.
Qed.

(** C2 on a path with the extension ".STL". *)
Lemma export_mesh_unsupported_format_witness :
  let host := Sample.host Sample.cpython_unicodedata [] Sample.all_done in
  let path := lit "/srv/out/model.STL" in
  (lower host (path_splitext host path).2 = lit ".stl" /\
   export_mesh host 1%N (Some path) init =
     (Return false,
      World [] [lit "Error: Unsupported file format .stl";
                lit "Supported formats: .obj, .blend"])).
Proof.
  split; [reflexivity|].
  apply (export_mesh_unsupported_format
           (Sample.host Sample.cpython_unicodedata [] Sample.all_done) 1%N
           (lit "/srv/out/model.STL") init).
  - apply (bool_decide_unpack _). reflexivity.
  - apply (bool_decide_unpack _). reflexivity.
Defined.

(** C3 on a ".Blend" path, with an export operator that raises. *)
Lemma export_mesh_dispatch_witness :
  let host := Sample.host Sample.cpython_unicodedata [] Sample.export_fails in
  let path := lit "/srv/out/scene.Blend" in
  resolve_ext host path = (lit ".blend", path) /\
  completes host [] (export_prepare host 1%N path) = true /\
  export_mesh host 1%N (Some path) init =
    (Return false,
     World [os_makedirs (lit "/srv/out") true;
            object_select_all (lit "DESELECT");
            select_set 1%N true;
            set_view_layer_active 1%N;
            wm_save_as_mainfile path]
           [lit "Export failed: Error: Cannot write file";
            lit "Traceback (most recent call last): RuntimeError: Error: Cannot write file"]).
Proof.
  split_and!; [reflexivity..|].
  apply (export_mesh_dispatch
           (Sample.host Sample.cpython_unicodedata [] Sample.export_fails) 1%N
           (lit "/srv/out/scene.Blend") init (lit ".blend") (lit "/srv/out/scene.Blend")).
  - reflexivity.
  - apply (bool_decide_unpack _). reflexivity.
  - reflexivity.
Defined.

(** C9 on a command line with options and no separator. *)
Lemma parse_args_without_separator_witness :
  let host := Sample.host Sample.cpython_unicodedata
                [lit "--text"; lit "Hi"; lit "--output"; lit "hi.blend"] Sample.all_done in
  (lit "--" ∉ argv host) /\
  parse_args host init = (Return defaults, init).
Proof.
  split.
  - apply (bool_decide_unpack _). reflexivity.
  - apply (parse_args_without_separator
             (Sample.host Sample.cpython_unicodedata
                [lit "--text"; lit "Hi"; lit "--output"; lit "hi.blend"] Sample.all_done) init).
    apply (bool_decide_unpack _). reflexivity.
Defined.

(** With the separator the options after it are parsed. *)
Example parse_args_with_separator :
  parse_args (Sample.host Sample.cpython_unicodedata
                [lit "--"; lit "--text"; lit "Hi"; lit "--output"; lit "hi.blend"] Sample.all_done) init
  = (Return {| text := lit "Hi"; font_ := lit ".\fonts\hp.ttf"; depth := Dec 2 (-1);
               resolution := 32; bevel := Dec 1 (-2); output := Some (lit "hi.blend") |}, init).
Proof. reflexivity. Qed.


(** C6 on a run that saves a scene file. *)
Lemma main_centers_before_export_witness :
  let host := Sample.host Sample.cpython_unicodedata
                [lit "--"; lit "--text"; lit "Hi"; lit "--output"; lit "out/hi.blend"]
                Sample.all_done in
  let path := lit "/srv/gen/out/hi.blend" in
  let args := {| text := lit "Hi"; font_ := lit ".\fonts\hp.ttf"; depth := Dec 2 (-1);
                 resolution := 32; bevel := Dec 1 (-2);
                 output := Some (lit "out/hi.blend") |} in
  let pre := main_setup host args ++ export_prepare host 1%N path in
  trace (main host init).2 = pre ++ [wm_save_as_mainfile path] /\
  exists before after,
    pre = before
          ++ [object_origin_set (lit "ORIGIN_CENTER_OF_MASS");
              set_location 1%N (0, 0, 0)]
          ++ after /\
    object_convert (lit "MESH") ∈ before /\
    select_set 1%N true ∈ after /\
    location_of pre 1%N = Some (0, 0, 0).
Proof.
  split; [reflexivity|].
  apply (proj2 (main_centers_before_export
           (Sample.host Sample.cpython_unicodedata
              [lit "--"; lit "--text"; lit "Hi"; lit "--output"; lit "out/hi.blend"]
              Sample.all_done))
           _ (wm_save_as_mainfile (lit "/srv/gen/out/hi.blend")) []);
    reflexivity.
Defined.

(** C4, as stated, fails: where the export operator raises, [export_mesh]
    returns [False] and [main] ends there, returning [None] as it does
    where the operator completes and [export_mesh] returns [True]; the host
    calls of the two runs are the same. *)
Lemma main_returns_normally_when_export_fails :
  let args := [lit "--"; lit "--text"; lit "Hi"] in
  let failing := Sample.host Sample.cpython_unicodedata args Sample.export_fails in
  let working := Sample.host Sample.cpython_unicodedata args Sample.all_done in
  let path := lit "/srv/gen/output/Hi_20240101_120000.obj" in
  let before := World (main_setup failing Sample.hi_args) [] in
  (export_mesh failing 1%N (Some path) before = (Return false, (main failing init).2) /\
   (main failing init).1 = Return tt /\
   export_mesh working 1%N (Some path) before = (Return true, (main working init).2) /\
   (main working init).1 = Return tt /\
   trace (main failing init).2 = trace (main working init).2).
Proof.
  split_and!; vm_compute; reflexivity.
Qed.

(** ** Straight sequences of host calls *)

Section Performs.
Context (host : Host).

Lemma run_calls_app t es1 es2 :
  run_calls host t (es1 ++ es2) =
    match run_calls host t es1 with
    | (None, t') => run_calls host t' es2
    | r => r
    end.
Proof.
  revert t. induction es1 as [|e es1 IH]; intros t; cbn [app run_calls]; [done|].
  destruct (respond host t e); [apply IH|done].
Qed.

Lemma run_calls_trace t es :
  exists n, (run_calls host t es).2 = t ++ take n es.
Proof.
  revert t. induction es as [|e es IH]; intros t.
  - exists O. cbn. by rewrite app_nil_r.
  - cbn [run_calls]. destruct (respond host t e).
    + destruct (IH (t ++ [e])) as [n ->]. exists (S n).
      by rewrite <- app_assoc.
    + by exists 1%nat.
Qed.

Lemma run_calls_all t es :
  (run_calls host t es).1 = None -> (run_calls host t es).2 = t ++ es.
Proof.
  revert t. induction es as [|e es IH]; intros t; cbn [run_calls].
  - by rewrite app_nil_r.
  - destruct (respond host t e); [|done].
    intros Hn. rewrite (IH _ Hn). by rewrite <- app_assoc.
Qed.

Lemma run_calls_completes t es :
  (run_calls host t es).1 = None <-> completes host t es = true.
Proof.
  revert t. induction es as [|e es IH]; intros t; cbn [run_calls completes]; [done|].
  destruct (respond host t e); [apply IH|done].
Qed.

Lemma performs_ret {A} (a : A) w : performs host (mret a) w [] a.
Proof. by destruct w. Qed.

Lemma performs_exec_bind {A} e (k : unit -> M A) w es a :
  performs host (k tt) (World (trace w ++ [e]) (stdout w)) es a ->
  performs host (exec host e ≫= k) w (e :: es) a.
Proof.
  unfold performs. intros Hk. rewrite run_bind, run_exec. cbn [run_calls].
  by destruct (respond host (trace w) e).
Qed.

Lemma performs_active_bind {A} (k : obj -> M A) w es a :
  performs host (k (active_object host (trace w))) w es a ->
  performs host (get_active_object host ≫= k) w es a.
Proof. unfold performs. by rewrite run_bind. Qed.

Lemma run_performs_bind {A B} (m : M A) (k : A -> M B) w es a :
  performs host m w es a ->
  (m ≫= k) w =
    match run_calls host (trace w) es with
    | (None, t') => k a (World t' (stdout w))
    | (Some x, t') => (Raise x, World t' (stdout w))
    end.
Proof.
  unfold performs. intros Hm. rewrite run_bind, Hm.
  by destruct (run_calls host (trace w) es) as [[x|] t'].
Qed.

Lemma performs_create_text_mesh text font_path d r b w :
  performs host (create_text_mesh host text font_path d r b) w
    (create_events host (trace w) text font_path d r b)
    (active_object host
       (trace w ++ [object_select_all (lit "SELECT"); object_delete;
                    object_text_add (0, 0, 0)]), text).
Proof.
  unfold create_text_mesh, create_events.
  do 3 apply performs_exec_bind. apply performs_active_bind.
  cbn [trace]. rewrite <- !app_assoc. cbn [app].
  do 10 apply performs_exec_bind. apply performs_ret.
Qed.

Lemma run_export_mesh o path w :
  export_mesh host o (Some path) w =
    let '(file_ext, output_path) := resolve_ext host path in
    if decide (file_ext ∈ [lit ".obj"; lit ".blend"]) then
      match run_calls host (trace w) (export_prepare host o output_path) with
      | (Some x, t') => (Raise x, World t' (stdout w))
      | (None, t') =>
          let op := export_operator file_ext output_path in
          match respond host t' op with
          | Done _ =>
              (Return true,
               World (t' ++ [op]) (stdout w ++ [lit "Exported to: " ++ output_path]))
          | Fails e =>
              (Return false,
               World (t' ++ [op])
                     (stdout w ++ [lit "Export failed: " ++ exn_msg e;
                                   format_exc host e]))
          end
      end
    else
      (Return false,
       World (trace w)
             (stdout w ++ [lit "Error: Unsupported file format " ++ file_ext;
                           lit "Supported formats: .obj, .blend"])).
Proof.
  unfold export_mesh, resolve_ext. rewrite run_bind, run_ret. cbn beta iota.
  destruct (decide (lower host (path_splitext host path).2 = [])) as [He|He].
  all: match goal with
       | |- context [decide (?x ∈ ?l)] => destruct (decide (x ∈ l)) as [Hin|Hin]
       end.
  all: try (rewrite decide_True by done; run; by rewrite <- app_assoc).
  all: rewrite decide_False by (intros Hn; done).
  all: cbn [export_prepare run_calls].
  all: repeat (rewrite run_bind, run_exec; cbn [trace stdout];
               destruct (respond host _ _); cbn beta iota; [|reflexivity]).
  all: unfold try_except, export_operator.
  - rewrite decide_True by done. rewrite run_bind, run_exec. cbn [trace stdout].
    destruct (respond _ _ _); cbn beta iota; run; rewrite <- ?app_assoc; reflexivity.
  - apply elem_of_cons in Hin as [Hin|Hin]; [|apply list_elem_of_singleton in Hin].
    + rewrite !(decide_True (P := _ = lit ".obj")) by done.
      rewrite run_bind, run_exec. cbn [trace stdout].
      destruct (respond _ _ _); cbn beta iota; run; rewrite <- ?app_assoc; reflexivity.
    + rewrite Hin.
      rewrite !(decide_False (P := lit ".blend" = lit ".obj"))
        by (intros Hn; vm_compute in Hn; discriminate).
      rewrite decide_True by done. rewrite run_bind, run_exec. cbn [trace stdout].
      destruct (respond _ _ _); cbn beta iota; run; rewrite <- ?app_assoc; reflexivity.
Qed.

Lemma quiet_ret {A} (a : A) : quiet (mret a).
Proof. intros [t out]. by exists a, out. Qed.

Lemma quiet_print line : quiet (print line).
Proof. intros w. by eexists _, _. Qed.

Lemma quiet_bind {A B} (m : M A) (k : A -> M B) :
  quiet m -> (forall a, quiet (k a)) -> quiet (m ≫= k).
Proof.
  intros Hm Hk w. destruct (Hm w) as (a & out & Ha).
  destruct (Hk a (World (trace w) out)) as (b & out' & Hb).
  exists b, out'. by rewrite run_bind, Ha, Hb.
Qed.

Lemma quiet_for_each {A} (xs : list A) (body : A -> M unit) :
  (forall x, quiet (body x)) -> quiet (for_each xs body).
Proof.
  intros Hb. induction xs as [|x xs IH]; [apply quiet_ret|].
  apply quiet_bind; [apply Hb|by intros []].
Qed.

Lemma quiet_check_font_support font_path text :
  quiet (check_font_support host font_path text).
Proof.
  intros w. rewrite run_check_font_support.
  destruct (font_check host font_path text) as [l|e|c] eqn:Hfc.
  - destruct w. by eexists _, _.
  - by eexists _, _.
  - by apply font_check_no_exit in Hfc.
Qed.

Lemma run_quiet_bind {A B} (m : M A) (k : A -> M B) w :
  quiet m -> exists a out, (m ≫= k) w = k a (World (trace w) out).
Proof.
  intros Hm. destruct (Hm w) as (a & out & Ha). exists a, out.
  by rewrite run_bind, Ha.
Qed.

Ltac quiet_tac :=
  repeat first
    [ apply quiet_print | apply quiet_ret | apply quiet_check_font_support
    | apply quiet_for_each; intros ?
    | apply quiet_bind; [|intros ?] ].

(** X9. With the options parsed and the font file there, [main] ends with
    the exception of the first host call, among the set-up and the
    preparation of the export, that raises, right after that call; when
    they all complete it returns [None] after all its host calls, whether
    the export operator completes or raises and whether the format is
    supported or not. *)
Theorem main_outcome args :
  (parse_args host init).1 = Return args ->
  path_exists host (main_font_path host args) = true ->
  let c := run_calls host [] (main_unguarded host args) in
  (main host init).1 = match c.1 with None => Return tt | Some x => Raise x end /\
  (c.1 <> None -> trace (main host init).2 = c.2) /\
  (c.1 = None -> trace (main host init).2 = main_events host args).
Proof.
  intros Hargs Hfont c.
  assert (Hrun : (main host init).1 = match c.1 with None => Return tt | Some x => Raise x end
                /\ (c.1 <> None -> trace (main host init).2 = c.2)).
  { subst c. unfold main, main_with.
    rewrite run_bind, run_parse_args, Hargs. cbn beta iota.
    fold (main_font_path host args). rewrite Hfont. cbn [negb].
    match goal with
    | |- context [(?m ≫= ?k) init] =>
        destruct (run_quiet_bind m k init) as ([b l] & out1 & ->); [quiet_tac|]
    end.
    cbn [init trace].
    match goal with
    | |- context [(?m ≫= ?k) ?w] =>
        destruct (run_quiet_bind m k w) as ([] & out2 & ->);
          [destruct b; cbn [negb]; quiet_tac|]
    end.
    cbn [trace].
    rewrite (run_performs_bind _ _ _ _ _ (performs_create_text_mesh _ _ _ _ _ _)).
    cbn [trace stdout]. fold (main_text_obj host).
    unfold main_unguarded, main_setup.
    destruct (resolve_ext host (main_output_path host args)) as [file_ext output_path] eqn:Hres.
    rewrite <- !app_assoc, run_calls_app.
    destruct (run_calls host [] (create_events host [] _ _ _ _ _)) as [[x|] t1]; [done|].
    cbn [app run_calls].
    rewrite run_bind, run_exec. cbn [trace stdout].
    destruct (respond host t1 _); [|done]. cbn beta iota.
    rewrite run_bind, run_exec. cbn [trace stdout].
    destruct (respond host _ (set_location _ _)); [|done]. cbn beta iota.
    fold (main_text_obj host). unfold main_output_path in Hres.
    destruct (output args) as [[|c p]|]; cbn [app run_calls].
    2: rewrite run_bind, run_ret; cbn beta iota.
    1,3: unfold get_default_output_path; fold (default_output_dir host);
         rewrite !run_bind, run_exec; cbn [trace stdout];
         destruct (respond host _ (os_makedirs _ _)); [|done]; cbn beta iota;
         rewrite run_ret; cbn beta iota.
    all: rewrite run_bind, run_export_mesh, Hres; cbn [trace stdout].
    all: destruct (decide (file_ext ∈ _)); [|done].
    all: destruct (run_calls host _ (export_prepare _ _ _)) as [[x|] t2]; [done|].
    all: cbn [fst snd]; split; [|done].
    all: by destruct (respond host t2 _). }
  destruct Hrun as [Hout Htr]. split_and!; [done..|].
  intros Hnone. rewrite Hnone in Hout.
  destruct (emits_main host args Hargs) as (es' & Hes & _ & Hret).
  rewrite Hout in Hret. destruct Hret as [-> _]. by rewrite Hes.
Qed.
End Performs.

(** X7. [create_text_mesh] is the straight sequence of its thirteen host
    calls: it stops with the exception of the first call that raises,
    making no later call; when they all complete it returns the object that
    was active right after the text was added, together with the text it
    was given.  It prints nothing. *)
Theorem create_text_mesh_runs (host : Host) (text font_path : pystr)
    (extrude_depth : pyfloat) (resolution : Z) (bevel_depth : pyfloat) (w : world) :
  let text_obj :=
    active_object host
      (trace w ++ [object_select_all (lit "SELECT"); object_delete;
                   object_text_add (0, 0, 0)]) in
  create_text_mesh host text font_path extrude_depth resolution bevel_depth w =
    match run_calls host (trace w)
            (create_events host (trace w) text font_path extrude_depth
                           resolution bevel_depth) with
    | (None, t') => (Return (text_obj, text), World t' (stdout w))
    | (Some x, t') => (Raise x, World t' (stdout w))
    end.
Proof. apply performs_create_text_mesh. Qed.

(** X8. When a call that prepares the export (making the directory,
    deselecting, selecting, activating) raises, [export_mesh] raises that
    exception right after the call: the calls made are a prefix of the
    preparation, no export operator is invoked and nothing is printed. *)
Theorem export_mesh_preparation_raises (host : Host) (o : obj) (path : pystr)
    (w : world) (file_ext output_path : pystr) (x : exn) (t' : list event) :
  resolve_ext host path = (file_ext, output_path) ->
  file_ext ∈ [lit ".obj"; lit ".blend"] ->
  run_calls host (trace w) (export_prepare host o output_path) = (Some x, t') ->
  export_mesh host o (Some path) w = (Raise x, World t' (stdout w)) /\
  exists n, t' = trace w ++ take n (export_prepare host o output_path).
Proof.
  intros Hres Hin Hrun. rewrite run_export_mesh, Hres.
  rewrite decide_True by done. rewrite Hrun. split; [done|].
  destruct (run_calls_trace host (trace w) (export_prepare host o output_path))
    as [n Hn].
  rewrite Hrun in Hn. by exists n.
Qed.

(** X10. Leaving the extension out is the same as writing ".obj": for a path
    without extension such that the path with ".obj" appended has the
    extension ".obj", [export_mesh] runs on the one as on the other. *)
Theorem export_mesh_default_extension (host : Host) (o : obj) (path : pystr) (w : world) :
  lower host (path_splitext host path).2 = [] ->
  lower host (path_splitext host (path ++ lit ".obj")).2 = lit ".obj" ->
  export_mesh host o (Some path) w = export_mesh host o (Some (path ++ lit ".obj")) w.
Proof.
  intros Hnone Hobj. rewrite !run_export_mesh. unfold resolve_ext.
  rewrite Hnone, Hobj.
  rewrite (decide_True (P := [] = [])) by done.
  by rewrite (decide_False (P := lit ".obj" = []))
    by (intros Hn; vm_compute in Hn; discriminate).
Qed.

(** ** [parse_args] *)

Lemma index_app_separator (x : pystr) (pre rest : list pystr) :
  x ∉ pre -> index x (pre ++ x :: rest) = length pre.
Proof.
  induction pre as [|y pre IH]; intros Hx; cbn [app index length].
  - by rewrite decide_True.
  - apply not_elem_of_cons in Hx as [Hne Hx].
    rewrite decide_False by done. by rewrite IH.
Qed.

(** X1. Only what follows the first "--" of the command line is parsed: when
    [sys.argv] is [pre], "--", [rest] and "--" does not occur in [pre], the
    parser is given [rest]; when nothing follows the separator every option
    has its default. *)
Theorem parse_args_after_separator (host : Host) (pre rest : list pystr) (w : world) :
  argv host = pre ++ lit "--" :: rest ->
  lit "--" ∉ pre ->
  parse_args host w =
    (match rest with
     | [] => Return defaults
     | _ => argparse_tokens host defaults rest
     end, w).
Proof.
  intros Hargv Hpre. unfold parse_args. rewrite Hargv.
  rewrite decide_True by set_solver.
  rewrite index_app_separator by done.
  replace (length pre + 1)%nat with (length (pre ++ [lit "--"]))
    by (rewrite length_app; reflexivity).
  rewrite (cons_middle (lit "--") pre rest), app_assoc, drop_app_length.
  reflexivity.
Qed.

(** ** [check_font_support], further *)

(** X2. A text whose characters are all in the cmap or white space is fully
    supported: the pair is [(True, [])], nothing is printed, no host call is
    made; this needs no [script] function. *)
Theorem check_font_support_all_supported (host : Host) (font : ttfont)
    (m : gmap N pystr) (font_path text : pystr) (w : world) :
  TTFont host font_path = inr font ->
  getBestCmap font = inr (Some m) ->
  Forall (fun c => m !! c <> None \/ isspace c = true) text ->
  check_font_support host font_path text w = (Return (true, []), w).
Proof.
  intros Hf Hc Hall. rewrite run_check_font_support. unfold font_check.
  rewrite Hf, Hc.
  assert (Hscan : scan host (Some m) text [] = Return []).
  { induction Hall as [|c text Hc' _ IH]; [done|]. cbn [scan].
    destruct Hc' as [Hin|Hsp].
    - by rewrite bool_decide_eq_false_2.
    - by rewrite Hsp, andb_false_r. }
  by rewrite Hscan.
Qed.

(** X3. A font without a Unicode cmap: the check of an empty text answers
    [(True, [])] and prints nothing; the check of any other text, white
    space included, fails on its first character and answers [(True, [])]
    with the warning. *)
Theorem check_font_support_no_cmap (host : Host) (font : ttfont)
    (font_path text : pystr) (w : world) :
  TTFont host font_path = inr font ->
  getBestCmap font = inr None ->
  check_font_support host font_path text w =
    match text with
    | [] => (Return (true, []), w)
    | _ :: _ =>
        (Return (true, []),
         World (trace w)
               (stdout w ++ [lit "Warning: Font check failed - argument of type 'NoneType' is not iterable"]))
    end.
Proof.
  intros Hf Hc. rewrite run_check_font_support. unfold font_check.
  rewrite Hf, Hc. by destruct text.
Qed.

(** X4. Where [unicodedata] has a [script] function, a font that loads and
    has a cmap is checked as documented: the first component tells whether
    every character that is not white space is in the cmap, and the list
    holds, in the order of the text and once for each occurrence, the
    characters that are not, each with its name (or "UNKNOWN"), category
    and script; nothing is printed. *)
Theorem check_font_support_reports (host : Host) (script : N -> pystr)
    (font : ttfont) (m : gmap N pystr) (font_path text : pystr) (w : world) :
  ud_script (unicodedata host) = Some script ->
  TTFont host font_path = inr font ->
  getBestCmap font = inr (Some m) ->
  exists unsupported_chars,
    check_font_support host font_path text w
      = (Return (bool_decide (unsupported_chars = []), unsupported_chars), w) /\
    map ci_char unsupported_chars
      = List.filter (fun c => bool_decide (m !! c = None) && negb (isspace c)) text /\
    Forall (fun ci =>
              ci_name ci = ud_name (unicodedata host) (ci_char ci) (lit "UNKNOWN") /\
              ci_category ci = ud_category (unicodedata host) (ci_char ci) /\
              ci_script ci = script (ci_char ci))
           unsupported_chars.
Proof.
  intros Hs Hf Hc.
  exists (map (describe host script) (List.filter (unsupported m) text)).
  split_and!.
  - rewrite run_check_font_support. unfold font_check.
    rewrite Hf, Hc, (scan_with_script _ script) by done. cbn [app].
    f_equal. f_equal. f_equal. apply bool_decide_ext.
    split; [by intros ?%nil_length_inv|by intros ->].
  - change (fun c => bool_decide (m !! c = None) && negb (isspace c))
      with (unsupported m).
    induction (List.filter (unsupported m) text) as [|c l IH]; [done|].
    cbn [map ci_char describe]. by f_equal.
  - apply Forall_fmap, Forall_true. by intros c.
Qed.

(** X5. Where [unicodedata] has no [script], as under CPython, the answer
    is [(True, [])] for every text; the warning is printed exactly when the
    text holds a character that is not white space and is missing from the
    cmap. *)
Theorem check_font_support_warns_without_script (host : Host) (font : ttfont)
    (m : gmap N pystr) (font_path text : pystr) (w : world) :
  ud_script (unicodedata host) = None ->
  TTFont host font_path = inr font ->
  getBestCmap font = inr (Some m) ->
  check_font_support host font_path text w =
    (Return (true, []),
     if forallb (fun c => negb (unsupported m c)) text then w
     else World (trace w)
                (stdout w ++ [lit "Warning: Font check failed - module 'unicodedata' has no attribute 'script'"])).
Proof.
  intros Hs Hf Hc. rewrite run_check_font_support. unfold font_check.
  rewrite Hf, Hc, scan_without_script by done.
  by destruct (forallb _ _).
Qed.

(** ** [main], further *)

(** X6. When the font file is not there, [main] prints the error and
    returns; it makes no host call. *)
Theorem main_font_missing (host : Host) (args : namespace) :
  (parse_args host init).1 = Return args ->
  path_exists host (join (os_path host) (script_dir host) (font_ args)) = false ->
  main host init =
    (Return tt,
     World [] [lit "Error: Font file not found at "
               ++ join (os_path host) (script_dir host) (font_ args)]).
Proof.
  intros Hargs Hfont. unfold main, main_with.
  rewrite run_bind, run_parse_args, Hargs. cbn beta iota.
  by rewrite Hfont.
Qed.


(** ** [ensure_addons_enabled] *)



(** X13. A module that cannot be enabled does not stop the others: when
    "io_scene_obj" is not among the addons before the first call and
    "io_mesh_stl" is not among them after it, both are passed to
    [addon_enable], whatever the first call answers, and each gets its
    line, "Enabled plugin" or "Failed to enable plugin" with the message. *)
Theorem ensure_addons_enabled_tries_all (prefs : Addons.preferences) (s : Addons.state) :
  let calls := Addons.enabled_calls s in
  Addons.in_addons prefs calls (lit "io_scene_obj") = false ->
  Addons.in_addons prefs (calls ++ [lit "io_scene_obj"]) (lit "io_mesh_stl") = false ->
  let report calls a :=
    match Addons.addon_enable prefs calls a with
    | Done _ => lit "Enabled plugin: " ++ a
    | Fails e => lit "Failed to enable plugin " ++ a ++ lit ": " ++ exn_msg e
    end in
  Addons.ensure_addons_enabled prefs s =
    Addons.State
      (calls ++ [lit "io_scene_obj"; lit "io_mesh_stl"])
      (Addons.printed s
       ++ [report calls (lit "io_scene_obj");
           report (calls ++ [lit "io_scene_obj"]) (lit "io_mesh_stl")]).
Proof.
  intros calls Hobj Hstl report. subst report calls.
  unfold Addons.ensure_addons_enabled, Addons.addons.
  cbn [Addons.enable_each]. unfold Addons.enable_one. rewrite Hobj. cbn [negb].
  destruct (Addons.addon_enable prefs (Addons.enabled_calls s) (lit "io_scene_obj"));
    cbn [Addons.enabled_calls Addons.printed]; rewrite Hstl; cbn [negb].
  all: destruct (Addons.addon_enable prefs _ (lit "io_mesh_stl"));
    cbn [Addons.enabled_calls Addons.printed]; by rewrite <- !app_assoc.
Qed.

(** X14. When both modules are among the addons already,
    [ensure_addons_enabled] calls nothing and prints nothing. *)
Theorem ensure_addons_enabled_idle (prefs : Addons.preferences) (s : Addons.state) :
  (forall a, a ∈ Addons.addons ->
     Addons.in_addons prefs (Addons.enabled_calls s) a = true) ->
  Addons.ensure_addons_enabled prefs s = s.
Proof.
  intros Hin. unfold Addons.ensure_addons_enabled, Addons.addons in *.
  cbn [Addons.enable_each]. unfold Addons.enable_one.
  rewrite (Hin (lit "io_scene_obj")) by set_solver. cbn [negb].
  by rewrite (Hin (lit "io_mesh_stl")) by set_solver.
Qed.

(** ** The code point in [main]'s warning *)

Lemma hex_digit_value_digit (d : N) :
  (d < 16)%N -> hex_digit_value (hex_digit d) = Some d.
Proof.
  intros Hd. unfold hex_digit_value, hex_digit.
  destruct (d <? 10)%N eqn:Hlt.
  - apply N.ltb_lt in Hlt.
    replace ((48 <=? 48 + d) && (48 + d <=? 57))%N with true.
    + f_equal. lia.
    + symmetry. apply andb_true_iff. split; apply N.leb_le; lia.
  - apply N.ltb_ge in Hlt.
    replace ((48 <=? 55 + d) && (55 + d <=? 57))%N with false.
    + replace ((65 <=? 55 + d) && (55 + d <=? 70))%N with true.
      * f_equal. lia.
      * symmetry. apply andb_true_iff. split; apply N.leb_le; lia.
    + symmetry. apply andb_false_iff. right. apply N.leb_gt. lia.
Qed.

Lemma hex_value_from_digits (fuel : nat) (n : N) (acc : pystr) :
  (n < 16 ^ N.of_nat (S fuel))%N ->
  hex_value_from 0 (hex_digits fuel n acc) = hex_value_from n acc.
Proof.
  revert n acc. induction fuel as [|fuel IH]; intros n acc Hn.
  - cbn [hex_digits hex_value_from]. change (16 ^ N.of_nat 1)%N with 16%N in Hn.
    rewrite N.mod_small by done. rewrite hex_digit_value_digit by done.
    f_equal; lia.
  - cbn [hex_digits].
    assert (Hstep : hex_value_from (n / 16) (hex_digit (n mod 16) :: acc)
                    = hex_value_from n acc).
    { cbn [hex_value_from].
      rewrite hex_digit_value_digit by (apply N.mod_lt; lia).
      f_equal. rewrite (N.div_mod n 16) at 3 by lia. lia. }
    destruct (n / 16 =? 0)%N eqn:Hq.
    + apply N.eqb_eq in Hq. rewrite <- Hstep, Hq. reflexivity.
    + rewrite IH; [exact Hstep|].
      apply N.Div0.div_lt_upper_bound.
      rewrite <- N.pow_succ_r', <- Nat2N.inj_succ. exact Hn.
Qed.

Lemma hex_value_from_zeros (k : nat) (s : pystr) :
  hex_value_from 0 (replicate k 48%N ++ s) = hex_value_from 0 s.
Proof. induction k as [|k IH]; [done|]. cbn [replicate app hex_value_from]. exact IH. Qed.

Lemma hex_digits_cons (fuel : nat) (n : N) (acc : pystr) :
  exists c s, hex_digits fuel n acc = c :: s.
Proof.
  revert n acc. induction fuel as [|fuel IH]; intros n acc; cbn [hex_digits].
  - by eexists _, _.
  - destruct (n / 16 =? 0)%N; [by eexists _, _|apply IH].
Qed.

Lemma hex_digits_length (fuel : nat) (n : N) (acc : pystr) (k : nat) :
  (n < 16 ^ N.of_nat (S k))%N ->
  (length (hex_digits fuel n acc) <= length acc + S k)%nat.
Proof.
  revert n acc k. induction fuel as [|fuel IH]; intros n acc k Hn; cbn [hex_digits].
  - cbn [length]. lia.
  - destruct (n / 16 =? 0)%N eqn:Hq; [cbn [length]; lia|].
    apply N.eqb_neq in Hq.
    destruct k as [|k].
    + change (16 ^ N.of_nat 1)%N with 16%N in Hn.
      rewrite N.div_small in Hq by done. done.
    + etrans; [apply (IH _ _ k)|cbn [length]; lia].
      apply N.Div0.div_lt_upper_bound.
      rewrite <- N.pow_succ_r', <- Nat2N.inj_succ. exact Hn.
Qed.

(** X15. The four-digit hexadecimal form of a code point reads back as the
    code point, and has at least four digits (more only when four do not
    hold it). *)
Theorem format_04X_roundtrip (n : N) :
  hex_value (format_04X n) = Some n /\
  (4 <= length (format_04X n))%nat /\
  ((n < 65536)%N -> length (format_04X n) = 4%nat).
Proof.
  unfold format_04X.
  set (ds := hex_digits (N.to_nat (N.log2 n)) n []).
  assert (Hval : hex_value_from 0 ds = Some n).
  { subst ds. rewrite hex_value_from_digits; [done|].
    rewrite Nat2N.inj_succ, N2Nat.id.
    destruct (N.eq_dec n 0%N) as [->|Hn]; [done|].
    destruct (N.log2_spec n) as [_ Hlt]; [lia|].
    eapply N.lt_le_trans; [exact Hlt|].
    apply N.pow_le_mono_l. lia. }
  split_and!.
  - destruct (hex_digits_cons (N.to_nat (N.log2 n)) n []) as (c & s & Hds).
    fold ds in Hds.
    assert (Hne : exists c' s', replicate (4 - length ds) 48%N ++ ds = c' :: s').
    { rewrite Hds. destruct (4 - length (c :: s))%nat; cbn; by eexists _, _. }
    destruct Hne as (c' & s' & Hne). unfold hex_value. rewrite Hne, <- Hne.
    by rewrite hex_value_from_zeros.
  - rewrite length_app, length_replicate. lia.
  - intros Hn. rewrite length_app, length_replicate.
    enough (length ds <= 4)%nat by lia.
    subst ds. apply (hex_digits_length _ n [] 3). exact Hn.
Qed.

(** ** The further theorems at work on sample hosts *)

(** X1 on the command line [blender -b -P gen.py -- --text Hi]. *)
Lemma parse_args_after_separator_witness :
  let host := Sample.host Sample.cpython_unicodedata
                [lit "--"; lit "--text"; lit "Hi"] Sample.all_done in
  let pre := [lit "blender"; lit "-b"; lit "-P"; lit "gen.py"] in
  argv host = pre ++ lit "--" :: [lit "--text"; lit "Hi"] /\
  (lit "--" ∉ pre) /\
  parse_args host init = (Return Sample.hi_args, init).
Proof.
  split_and!; [reflexivity|apply (bool_decide_unpack _); reflexivity|].
  apply (parse_args_after_separator
           (Sample.host Sample.cpython_unicodedata
              [lit "--"; lit "--text"; lit "Hi"] Sample.all_done)
           [lit "blender"; lit "-b"; lit "-P"; lit "gen.py"]
           [lit "--text"; lit "Hi"] init).
  - reflexivity.
  - apply (bool_decide_unpack _). reflexivity.
Defined.

(** X2 on the text "Hi i" and the Latin font. *)
Lemma check_font_support_all_supported_witness :
  let host := Sample.host Sample.cpython_unicodedata [] Sample.all_done in
  let text := [72; 105; 32; 105]%N in
  Forall (fun c => Sample.latin_cmap !! c <> None \/ isspace c = true) text /\
  check_font_support host (lit "/srv/gen/hp.ttf") text init = (Return (true, []), init).
Proof.
  assert (H : Forall (fun c => Sample.latin_cmap !! c <> None \/ isspace c = true)
                     [72; 105; 32; 105]%N).
  { repeat (apply Forall_cons_2; [left; vm_compute; discriminate|]).
    apply Forall_nil_2. }
  split; [exact H|].
  exact (check_font_support_all_supported
           (Sample.host Sample.cpython_unicodedata [] Sample.all_done)
           {| getBestCmap := inr (Some Sample.latin_cmap) |} Sample.latin_cmap
           (lit "/srv/gen/hp.ttf") [72; 105; 32; 105]%N init eq_refl eq_refl H).
Defined.

(** X3 on a font without a Unicode cmap and a text of one space. *)
Lemma check_font_support_no_cmap_witness :
  let host := with_files (Sample.host Sample.cpython_unicodedata [] Sample.all_done)
                         (fun _ => true) symbol_font in
  check_font_support host (lit "/srv/gen/symbol.ttf") [32%N] init =
    (Return (true, []),
     World [] [lit "Warning: Font check failed - argument of type 'NoneType' is not iterable"]).
Proof.
  exact (check_font_support_no_cmap
           (with_files (Sample.host Sample.cpython_unicodedata [] Sample.all_done)
                       (fun _ => true) symbol_font)
           {| getBestCmap := inr None |} (lit "/srv/gen/symbol.ttf") [32%N] init
           eq_refl eq_refl).
Defined.

(** X4 on the Latin font, a [script] function and a text with U+4E2D
    twice. *)
Lemma check_font_support_reports_witness :
  let host := Sample.host Sample.scripted_unicodedata [] Sample.all_done in
  exists unsupported_chars,
    check_font_support host (lit "/srv/gen/hp.ttf") [72; 20013; 105; 20013]%N init
      = (Return (bool_decide (unsupported_chars = []), unsupported_chars), init) /\
    map ci_char unsupported_chars = [20013; 20013]%N /\
    Forall (fun ci =>
              ci_name ci = ud_name Sample.scripted_unicodedata (ci_char ci) (lit "UNKNOWN") /\
              ci_category ci = ud_category Sample.scripted_unicodedata (ci_char ci) /\
              ci_script ci = (if (ci_char ci =? 20013)%N then lit "Hani" else lit "Latn"))
           unsupported_chars.
Proof.
  exact (check_font_support_reports
           (Sample.host Sample.scripted_unicodedata [] Sample.all_done)
           (fun c => if (c =? 20013)%N then lit "Hani" else lit "Latn")
           {| getBestCmap := inr (Some Sample.latin_cmap) |} Sample.latin_cmap
           (lit "/srv/gen/hp.ttf") [72; 20013; 105; 20013]%N init
           eq_refl eq_refl eq_refl).
Defined.

(** X5 on the default text "hello", of which the Latin font has no letter. *)
Lemma check_font_support_warns_without_script_witness :
  let host := Sample.host Sample.cpython_unicodedata [] Sample.all_done in
  check_font_support host (lit "/srv/gen/hp.ttf") (lit "hello") init =
    (Return (true, []),
     World [] [lit "Warning: Font check failed - module 'unicodedata' has no attribute 'script'"]).
Proof.
  exact (check_font_support_warns_without_script
           (Sample.host Sample.cpython_unicodedata [] Sample.all_done)
           {| getBestCmap := inr (Some Sample.latin_cmap) |} Sample.latin_cmap
           (lit "/srv/gen/hp.ttf") (lit "hello") init eq_refl eq_refl eq_refl).
Defined.

(** X6 on a host without the font file. *)
Lemma main_font_missing_witness :
  let host := with_files (Sample.host Sample.cpython_unicodedata [] Sample.all_done)
                         (fun _ => false) symbol_font in
  main host init =
    (Return tt, World [] [lit "Error: Font file not found at /srv/gen/.\fonts\hp.ttf"]).
Proof.
  exact (main_font_missing
           (with_files (Sample.host Sample.cpython_unicodedata [] Sample.all_done)
                       (fun _ => false) symbol_font)
           defaults eq_refl eq_refl).
Defined.

(** X8 where the output directory cannot be made. *)
Lemma export_mesh_preparation_raises_witness :
  let host := Sample.host Sample.cpython_unicodedata [] makedirs_fails in
  let path := lit "/srv/out/hi.obj" in
  export_mesh host 1%N (Some path) init =
    (Raise (Exn "PermissionError" (lit "[Errno 13] Permission denied")),
     World [os_makedirs (lit "/srv/out") true] []) /\
  exists n, [os_makedirs (lit "/srv/out") true] = take n (export_prepare host 1%N path).
Proof.
  exact (export_mesh_preparation_raises
           (Sample.host Sample.cpython_unicodedata [] makedirs_fails) 1%N
           (lit "/srv/out/hi.obj") init (lit ".obj") (lit "/srv/out/hi.obj")
           (Exn "PermissionError" (lit "[Errno 13] Permission denied"))
           [os_makedirs (lit "/srv/out") true]
           eq_refl (list_elem_of_here _ _) eq_refl).
Defined.

(** X9 where the default output directory cannot be made: [main] raises
    after the set-up, before any call of the export. *)
Lemma main_outcome_witness :
  let host := Sample.host Sample.cpython_unicodedata
                [lit "--"; lit "--text"; lit "Hi"] makedirs_fails in
  (main host init).1 = Raise (Exn "PermissionError" (lit "[Errno 13] Permission denied")) /\
  last (trace (main host init).2) = Some (os_makedirs (lit "/srv/gen/output") true).
Proof.
  pose proof (main_outcome
                (Sample.host Sample.cpython_unicodedata
                   [lit "--"; lit "--text"; lit "Hi"] makedirs_fails)
                Sample.hi_args eq_refl eq_refl) as (Hout & Htr & _).
  split; [exact Hout|].
  rewrite Htr; [reflexivity|discriminate].
Defined.

(** X10 on a path without extension. *)
Lemma export_mesh_default_extension_witness :
  let host := Sample.host Sample.cpython_unicodedata [] Sample.all_done in
  export_mesh host 1%N (Some (lit "/srv/out/model")) init =
  export_mesh host 1%N (Some (lit "/srv/out/model" ++ lit ".obj")) init.
Proof.
  exact (export_mesh_default_extension
           (Sample.host Sample.cpython_unicodedata [] Sample.all_done) 1%N
           (lit "/srv/out/model") init eq_refl eq_refl).
Defined.

(** The hypothesis of X10 is needed: the file name ".obj" has no extension,
    and neither has ".obj" with ".obj" appended; the one is exported to
    ".obj", the other to ".obj.obj". *)
Example export_mesh_hidden_file :
  let host := Sample.host Sample.cpython_unicodedata [] Sample.all_done in
  resolve_ext host (lit "/srv/out/") = (lit ".obj", lit "/srv/out/.obj") /\
  resolve_ext host (lit "/srv/out/.obj") = (lit ".obj", lit "/srv/out/.obj.obj").
Proof. split; reflexivity. Qed.

(** X13 in preferences that list a module once it is enabled, where the
    first module cannot be enabled. *)
Lemma ensure_addons_enabled_tries_all_witness :
  Addons.in_addons Addons.no_obj [] (lit "io_scene_obj") = false /\
  Addons.in_addons Addons.no_obj [lit "io_scene_obj"] (lit "io_mesh_stl") = false /\
  Addons.in_addons Addons.no_obj [lit "io_scene_obj"; lit "io_mesh_stl"]
                   (lit "io_mesh_stl") = true /\
  Addons.ensure_addons_enabled Addons.no_obj (Addons.State [] []) =
    Addons.State [lit "io_scene_obj"; lit "io_mesh_stl"]
      [lit "Failed to enable plugin io_scene_obj: No module named 'io_scene_obj'";
       lit "Enabled plugin: io_mesh_stl"].
Proof.
  split_and!; [reflexivity..|].
  exact (ensure_addons_enabled_tries_all Addons.no_obj (Addons.State [] [])
           eq_refl eq_refl).
Defined.

(** X14 where both addons are listed. *)
Lemma ensure_addons_enabled_idle_witness :
  let prefs := {| Addons.in_addons := fun _ a => bool_decide (a ∈ Addons.addons);
                  Addons.addon_enable := fun _ _ => Done FINISHED |} in
  Addons.ensure_addons_enabled prefs (Addons.State [] [lit "ready"]) =
    Addons.State [] [lit "ready"].
Proof.
  apply (ensure_addons_enabled_idle
           {| Addons.in_addons := fun _ a => bool_decide (a ∈ Addons.addons);
              Addons.addon_enable := fun _ _ => Done FINISHED |}
           (Addons.State [] [lit "ready"])).
  intros a Ha. by apply bool_decide_eq_true.
Defined.

(** A run in preferences where "io_mesh_stl" cannot be enabled: the second
    run tries it again, and it alone. *)
Example ensure_addons_enabled_twice :
  let once := Addons.ensure_addons_enabled Addons.no_stl (Addons.State [] []) in
  Addons.enabled_calls once = [lit "io_scene_obj"; lit "io_mesh_stl"] /\
  Addons.enabled_calls (Addons.ensure_addons_enabled Addons.no_stl once) =
    [lit "io_scene_obj"; lit "io_mesh_stl"; lit "io_mesh_stl"].
Proof. split; reflexivity. Qed.

(** ** What [main] does with the result of the export *)

Lemma same_calls_ret {A} (a : A) : same_calls (mret a) (mret a).
Proof. by intros w1 w2 Ht. Qed.

Lemma same_calls_print line1 line2 : same_calls (print line1) (print line2).
Proof. by intros w1 w2 Ht. Qed.

Lemma same_calls_lift {A} (r : outcome A) : same_calls (lift r) (lift r).
Proof. by intros w1 w2 Ht. Qed.

Lemma same_calls_bind {A B} (m1 m2 : M A) (k1 k2 : A -> M B) :
  same_calls m1 m2 -> (forall a, same_calls (k1 a) (k2 a)) ->
  same_calls (m1 ≫= k1) (m2 ≫= k2).
Proof.
  intros Hm Hk w1 w2 Ht. rewrite !run_bind.
  destruct (Hm w1 w2 Ht) as [Ho Htr].
  destruct (m1 w1) as [[a1|e1|c1] w1'], (m2 w2) as [[a2|e2|c2] w2'];
    cbn [fst snd] in *; simplify_eq; try done.
  by apply Hk.
Qed.

Lemma same_calls_for_each {A} (xs : list A) (body1 body2 : A -> M unit) :
  (forall x, same_calls (body1 x) (body2 x)) ->
  same_calls (for_each xs body1) (for_each xs body2).
Proof.
  intros Hb. induction xs as [|x xs IH]; [apply same_calls_ret|].
  apply same_calls_bind; [apply Hb|by intros []].
Qed.

Lemma same_calls_check_font_support host font_path text :
  same_calls (check_font_support host font_path text)
             (check_font_support host font_path text).
Proof.
  intros w1 w2 Ht. rewrite !run_check_font_support.
  by destruct (font_check host font_path text).
Qed.

Section Answers.
Context (host : Host) (answers : list event -> event -> response).
Hypothesis agree :
  forall t e, is_export e = false -> raised (answers t e) = raised (respond host t e).

Lemma same_calls_exec e :
  is_export e = false ->
  same_calls (exec (with_respond host answers) e) (exec host e).
Proof.
  intros He w1 w2 Ht. rewrite !run_exec. cbn [with_respond respond].
  rewrite Ht. specialize (agree (trace w2) e He).
  destruct (answers _ _), (respond host _ _); by simplify_eq/=.
Qed.

Lemma same_calls_active_bind {B} (k1 k2 : obj -> M B) :
  (forall o, same_calls (k1 o) (k2 o)) ->
  same_calls (get_active_object (with_respond host answers) ≫= k1)
             (get_active_object host ≫= k2).
Proof.
  intros Hk w1 w2 Ht. rewrite !run_bind. cbn. rewrite Ht. by apply Hk.
Qed.

Ltac same_calls_tac :=
  repeat first
    [ apply same_calls_ret | apply same_calls_print | apply same_calls_lift
    | apply same_calls_exec; reflexivity
    | apply same_calls_active_bind; intros ?
    | apply same_calls_bind; [|intros ?] ].

Lemma same_calls_create_text_mesh text font_path d r b :
  same_calls (create_text_mesh (with_respond host answers) text font_path d r b)
             (create_text_mesh host text font_path d r b).
Proof. unfold create_text_mesh. same_calls_tac. Qed.

Lemma same_calls_get_default_output_path text ext :
  same_calls (get_default_output_path (with_respond host answers) text ext)
             (get_default_output_path host text ext).
Proof. unfold get_default_output_path. same_calls_tac. Qed.

Lemma run_calls_agree t es :
  Forall (fun e => is_export e = false) es ->
  run_calls (with_respond host answers) t es = run_calls host t es.
Proof.
  intros Hes. revert t. induction Hes as [|e es He _ IH]; intros t; [done|].
  cbn [run_calls with_respond respond]. specialize (agree t e He).
  destruct (answers t e), (respond host t e); simplify_eq/=; [apply IH|done].
Qed.

Lemma same_calls_export_mesh o path :
  same_calls (discard (export_mesh (with_respond host answers) o (Some path)))
             (discard (export_mesh host o (Some path))).
Proof.
  intros w1 w2 Ht. unfold discard. rewrite !run_bind, !run_export_mesh.
  change (resolve_ext (with_respond host answers) path) with (resolve_ext host path).
  destruct (resolve_ext host path) as [file_ext output_path].
  destruct (decide (file_ext ∈ _)); [|done].
  rewrite run_calls_agree by (unfold export_prepare; repeat constructor).
  change (export_prepare (with_respond host answers)) with (export_prepare host).
  rewrite Ht.
  destruct (run_calls host (trace w2) _) as [[x|] t']; [done|].
  cbn [with_respond respond].
  by destruct (answers t' _), (respond host t' _).
Qed.

Lemma same_calls_main :
  same_calls (main (with_respond host answers)) (main host).
Proof.
  unfold main, main_with.
  apply same_calls_bind; [apply same_calls_lift|]. intros args.
  cbn [with_respond path_exists os_path script_dir].
  destruct (negb _); [apply same_calls_print|].
  apply same_calls_bind; [exact (same_calls_check_font_support host _ _)|].
  intros [is_supported unsupported_chars].
  apply same_calls_bind.
  { destruct (negb is_supported); [|apply same_calls_ret].
    apply same_calls_bind; [apply same_calls_print|intros ?].
    apply same_calls_bind; [|intros ?; apply same_calls_print].
    apply same_calls_for_each. intros ci. same_calls_tac. }
  intros [].
  apply same_calls_bind; [apply same_calls_create_text_mesh|].
  intros [text_obj original_text].
  do 2 (apply same_calls_bind; [by apply same_calls_exec|intros []]).
  apply same_calls_bind.
  { destruct (output args) as [[|? ?]|];
      [|apply same_calls_ret|]; apply same_calls_get_default_output_path. }
  intros output_path. apply same_calls_export_mesh.
Qed.
End Answers.

(** C4, as the code has it.  The failure of an export operator is handled in
    [export_mesh]: for a supported format, once the export is prepared, the
    call returns [False] after printing the error when the operator raises
    and [True] when it completes.  The script looks at no value a host call
    returns: with other statuses handed back (and the same exceptions
    raised) [main] runs the same way.  [main] drops what the export step
    returns: with any export step that has the same effects, whatever it
    returns, [main] runs the same way; and it ends the same way, after the
    same host calls, whether the export operators complete or raise. *)
Theorem main_discards_results (host : Host)
    (respond' : list event -> event -> response)
    (export1 export2 : obj -> option pystr -> M bool) (w : world) :
  (forall t e, raised (respond' t e) = raised (respond host t e)) ->
  (forall o p w', discard (export1 o p) w' = discard (export2 o p) w') ->
  (forall o path file_ext output_path,
     resolve_ext host path = (file_ext, output_path) ->
     file_ext ∈ [lit ".obj"; lit ".blend"] ->
     completes host (trace w) (export_prepare host o output_path) = true ->
     let t := trace w ++ export_prepare host o output_path in
     let op := export_operator file_ext output_path in
     export_mesh host o (Some path) w =
       match respond host t op with
       | Done _ =>
           (Return true,
            World (t ++ [op]) (stdout w ++ [lit "Exported to: " ++ output_path]))
       | Fails e =>
           (Return false,
            World (t ++ [op])
                  (stdout w ++ [lit "Export failed: " ++ exn_msg e; format_exc host e]))
       end) /\
  main (with_respond host respond') w = main host w /\
  main_with host export1 w = main_with host export2 w /\
  (forall answers,
     (forall t e, is_export e = false ->
        raised (answers t e) = raised (respond host t e)) ->
     (main (with_respond host answers) w).1 = (main host w).1 /\
     trace (main (with_respond host answers) w).2 = trace (main host w).2).
Proof.
  intros Hr He. split_and!.
  - intros o path file_ext output_path Hres Hin Hprep t op.
    rewrite run_export_mesh, Hres. rewrite decide_True by done.
    apply run_calls_completes in Hprep.
    pose proof (run_calls_all host _ _ Hprep) as Hall.
    destruct (run_calls host (trace w) (export_prepare host o output_path))
      as [[x|] t']; [done|].
    cbn [snd] in Hall. by subst t'.
  - by apply main_agree.
  - by apply main_with_discard.
  - intros answers Hanswers. by apply same_calls_main.
Qed.

(** C4 on a host whose export operators raise: [export_mesh] returns
    [False]; [main] runs the same way when the operators report that they
    were cancelled and when the export step returns the opposite; and it
    ends as on the host whose export operators complete. *)
Lemma main_discards_results_witness :
  let host := Sample.host Sample.cpython_unicodedata [lit "--"; lit "--text"; lit "Hi"]
                Sample.export_fails in
  let cancelled := fun (t : list event) (e : event) =>
    match Sample.export_fails t e with Done _ => Done CANCELLED | r => r end in
  let negated := fun o p => b ← export_mesh host o p; mret (negb b) in
  let path := lit "/srv/out/hi.obj" in
  export_mesh host 1%N (Some path) init =
    (Return false,
     World [os_makedirs (lit "/srv/out") true;
            object_select_all (lit "DESELECT");
            select_set 1%N true;
            set_view_layer_active 1%N;
            wm_obj_export path true false]
           [lit "Export failed: Error: Cannot write file";
            lit "Traceback (most recent call last): RuntimeError: Error: Cannot write file"]) /\
  main (with_respond host cancelled) init = main host init /\
  main_with host negated init = main_with host (export_mesh host) init /\
  (main (with_respond host Sample.all_done) init).1 = (main host init).1 /\
  (main host init).1 = Return tt /\
  trace (main (with_respond host Sample.all_done) init).2 = trace (main host init).2.
Proof.
  pose proof (main_discards_results
                (Sample.host Sample.cpython_unicodedata [lit "--"; lit "--text"; lit "Hi"]
                   Sample.export_fails)
                (fun t e => match Sample.export_fails t e with
                            | Done _ => Done CANCELLED | r => r end)
                (fun o p =>
                   b ← export_mesh
                         (Sample.host Sample.cpython_unicodedata
                            [lit "--"; lit "--text"; lit "Hi"] Sample.export_fails) o p;
                   mret (negb b))
                (export_mesh
                   (Sample.host Sample.cpython_unicodedata
                      [lit "--"; lit "--text"; lit "Hi"] Sample.export_fails))
                init) as H.
  destruct H as (Hexport & Hstatus & Hdrop & Hsame).
  - intros t e. cbn. by destruct (Sample.export_fails t e).
  - intros o p w. apply discard_fmap.
  - destruct (Hsame Sample.all_done) as [Hout Htrace].
    { intros t e Hne. cbn [respond Sample.host].
      unfold Sample.export_fails, Sample.all_done. by rewrite Hne. }
    split_and!; [|exact Hstatus|exact Hdrop|exact Hout|reflexivity|exact Htrace].
    exact (Hexport 1%N (lit "/srv/out/hi.obj") (lit ".obj") (lit "/srv/out/hi.obj")
             eq_refl (list_elem_of_here _ _) eq_refl).
Defined.
